(** * CRM Lead WhatsApp integration: the client-side controller

    A shallow embedding of [walue_whatsapp_client/public/js/crm_lead.js]:
    the call-permission flow, the call widget with its elapsed timer, and
    the message composer with its template list and sync button.

    The script is event driven: every function returns at once after
    registering callbacks with the host (the form toolkit, the browser's
    timers, the remote-call helper), and the host later runs one callback
    at a time.  The embedding keeps that shape: a [World] holds the
    script's globals, the widgets it created and the callbacks it handed to
    the host; every source function is a computation on the [World]; and
    [step] runs the callback the host would run for one [Event]. *)

From Stdlib Require Import ZArith String Ascii List Bool Lia DecimalString.
From stdpp Require Import base option list gmap strings.

Set Warnings "-register-all".

Local Open Scope string_scope.
Local Open Scope Z_scope.
Local Open Scope list_scope.

(** ** Values of the scripting language *)

Module Js.

(** Values as the script sees them after the response was parsed.  Numbers
    are the integers a double holds exactly, those of absolute value below
    [2^53], with [JNaN] for the result of arithmetic on something that is
    no number: fractions, infinities and larger numbers are outside the
    model, and nothing is stated here about a number beyond that range.
    An object is the association list of its own properties, read by first
    match. *)
Inductive JsVal : Type :=
| JUndefined
| JNull
| JBool (b : bool)
| JNum (n : Z)
| JNaN
| JStr (s : string)
| JArr (items : list JsVal)
| JObj (props : list (string * JsVal)).

(** ToBoolean: what [if (v)], [!v], [v ? a : b], [&&] and [||] test. *)
Definition truthy (v : JsVal) : bool :=
  match v with
  | JUndefined | JNull | JNaN => false
  | JBool b => b
  | JNum n => negb (n =? 0)
  | JStr s => negb (String.eqb s EmptyString)
  | JArr _ | JObj _ => true
  end.

(** [a || b] *)
Definition js_or (a b : JsVal) : JsVal := if truthy a then a else b.

(** [Array.isArray(v)] *)
Definition is_array (v : JsVal) : bool :=
  match v with JArr _ => true | _ => false end.

Fixpoint assoc (k : string) (ps : list (string * JsVal)) : JsVal :=
  match ps with
  | [] => JUndefined
  | (k', v) :: ps' => if String.eqb k k' then v else assoc k ps'
  end.

(** [v.k] for the property names the script reads ([success], [error],
    [templates], ...): none of them lives on a prototype, so only an
    object can have one.  Reading a property of [undefined] or [null]
    throws a TypeError, which is [None]. *)
Definition member (v : JsVal) (k : string) : option JsVal :=
  match v with
  | JUndefined | JNull => None
  | JObj ps => Some (assoc k ps)
  | _ => Some JUndefined
  end.

(** [v.k] at a place where the script has already tested [v] truthy. *)
Definition prop (v : JsVal) (k : string) : JsVal :=
  default JUndefined (member v k).

(** Decimal numeral of an integer, as [String(n)] prints it for
    [|n| < 2^53]; the script's numbers are doubles, which print rounded,
    and in exponent form from [1e21]. *)
Definition dec (n : Z) : string := NilZero.string_of_int (Z.to_int n).

(** ToString.  An array prints its elements separated by commas, with
    [undefined] and [null] elements printed as nothing. *)
Fixpoint js_to_string (v : JsVal) : string :=
  match v with
  | JUndefined => "undefined"
  | JNull => "null"
  | JBool true => "true"
  | JBool false => "false"
  | JNum n => dec n
  | JNaN => "NaN"
  | JStr s => s
  | JArr items =>
      (fix commas (l : list JsVal) : string :=
         match l with
         | [] => EmptyString
         | x :: rest =>
             match x with
             | JUndefined | JNull => EmptyString
             | _ => js_to_string x
             end +:+
             match rest with
             | [] => EmptyString
             | _ => "," +:+ commas rest
             end
         end) items
  | JObj _ => "[object Object]"
  end.

(** [a + s] with a string on the right: string concatenation. *)
Definition js_concat (a : JsVal) (s : string) : string := js_to_string a +:+ s.

(** [items.join(sep)] *)
Fixpoint js_join (sep : string) (items : list JsVal) : string :=
  match items with
  | [] => EmptyString
  | x :: rest =>
      match x with
      | JUndefined | JNull => EmptyString
      | _ => js_to_string x
      end +:+
      match rest with
      | [] => EmptyString
      | _ => sep +:+ js_join sep rest
      end
  end.

(** [s.padStart(n, c)] for a one-character pad. *)
Definition padStart (n : nat) (c : ascii) (s : string) : string :=
  string_of_list_ascii (repeat c (n - String.length s)) +:+ s.

Definition is_digit (c : ascii) : bool :=
  ((48 <=? nat_of_ascii c) && (nat_of_ascii c <=? 57))%nat.

Definition digit_val (c : ascii) : nat := (nat_of_ascii c - 48)%nat.

Definition is_space (c : ascii) : bool :=
  let n := nat_of_ascii c in
  ((n =? 32) || ((9 <=? n) && (n <=? 13)))%nat.

Fixpoint drop_spaces (s : string) : string :=
  match s with
  | String c rest => if is_space c then drop_spaces rest else s
  | EmptyString => s
  end.

(** Reads [digits][spaces] to the end of the string. *)
Fixpoint digits_then_spaces (acc : Z) (seen : bool) (s : string) : option Z :=
  match s with
  | EmptyString => if seen then Some acc else None
  | String c rest =>
      if is_digit c then
        digits_then_spaces (10 * acc + Z.of_nat (digit_val c)) true rest
      else if seen && is_space c then
        match drop_spaces rest with
        | EmptyString => Some acc
        | _ => None
        end
      else None
  end.

(** ToNumber on a string, for plain decimal integer numerals only:
    surrounding white space, an optional sign, digits; the empty string is
    0.  The other numerals that ToNumber reads (a fraction, an exponent, a
    radix prefix, [Infinity]) are not modelled, also where they denote an
    integer such as ["1e2"], ["0x10"] or ["12.0"]: they come out as [JNaN]
    here, and no statement below is about such a string. *)
Definition string_to_number (s : string) : JsVal :=
  match drop_spaces s with
  | EmptyString => JNum 0
  | String "-" rest =>
      match digits_then_spaces 0 false rest with
      | Some n => JNum (- n)
      | None => JNaN
      end
  | String "+" rest =>
      match digits_then_spaces 0 false rest with
      | Some n => JNum n
      | None => JNaN
      end
  | t =>
      match digits_then_spaces 0 false t with
      | Some n => JNum n
      | None => JNaN
      end
  end.

(** ToNumber: what the operands of [/] and [%] are turned into. *)
Definition to_number (v : JsVal) : JsVal :=
  match v with
  | JUndefined | JNaN => JNaN
  | JNull => JNum 0
  | JBool b => JNum (if b then 1 else 0)
  | JNum n => JNum n
  | JStr s => string_to_number s
  | JArr _ => string_to_number (js_to_string v)
  | JObj _ => JNaN
  end.

(** [Math.floor(v / k)] for a positive integer constant [k].  The script
    divides doubles and rounds the quotient before the floor; for
    [|v| < 2^53] and [k = 60] that is the exact quotient taken here, for
    larger numbers it need not be. *)
Definition floor_div (v : JsVal) (k : Z) : JsVal :=
  match to_number v with
  | JNum n => JNum (n / k)
  | _ => JNaN
  end.

(** [v % k] for a positive integer constant [k]: the remainder takes the
    sign of the dividend. *)
Definition js_rem (v : JsVal) (k : Z) : JsVal :=
  match to_number v with
  | JNum n => JNum (Z.rem n k)
  | _ => JNaN
  end.

End Js.
Import Js.


(** ** What the script asks of the host, and what the user sees *)

Definition nl : string := String "010" EmptyString.

(** The text consumed since an opening brace, and the index read so far. *)
Definition Placeholder : Type := string * option nat.

(** Placeholder substitution of the translation helper: every [{i}] is
    replaced by the printed [i]-th argument, and stays as it is when there
    is no such argument. *)
Fixpoint format_scan (args : list JsVal) (open : option Placeholder) (s : string) : string :=
  match s with
  | EmptyString => match open with Some (raw, _) => raw | None => EmptyString end
  | String c rest =>
      match open with
      | None =>
          if Ascii.eqb c "{" then format_scan args (Some ("{", None)) rest
          else String c (format_scan args None rest)
      | Some (raw, idx) =>
          if is_digit c then
            format_scan args
              (Some (raw +:+ String c EmptyString, Some (10 * default 0%nat idx + digit_val c)%nat)) rest
          else if Ascii.eqb c "}" then
            match idx ≫= (fun i => args !! i) with
            | Some JUndefined | None => raw +:+ "}"
            | Some a => js_to_string a
            end +:+ format_scan args None rest
          else if Ascii.eqb c "{" then raw +:+ format_scan args (Some ("{", None)) rest
          else raw +:+ String c (format_scan args None rest)
      end
  end.

(** [__(text, args)] of the host, with no translation loaded for [text]. *)
Definition __ (text : string) (args : list JsVal) : string :=
  format_scan args None text.

(** What reaches the backend or the user, in the order it happened. *)
Inductive Effect : Type :=
| RemoteCall (method : string) (args : list (string * JsVal)) (freeze_message : option string)
| ConfirmPrompt (message : string)
| Msgprint (title : option string) (message : JsVal) (indicator : option string)
| ShowAlert (message : JsVal) (indicator : string)
| ReloadDoc
| TypeError.

(** The [callback] options the script passes to [frappe.call], one
    constructor per function literal, with the variables it closes over. *)
Inductive Callback : Type :=
| check_permission_cb
| request_permission_cb
| initiate_cb
| end_cb (dialog : nat)
| check_conversation_window_cb
| get_templates_cb (window_status : JsVal)
| sync_templates_cb (dialog : nat)
| refresh_templates_cb (dialog : nat)
| send_cb (dialog : nat).

(** The two [setTimeout] bodies of [initialize_webrtc]. *)
Inductive Timeout : Type :=
| Ringing (dialog : nat)
| Connected (dialog : nat).

(** A function the script has handed to the host, to be run later. *)
Inductive Handler : Type :=
| OnResponse (cb : Callback)
| OnConfirm
| OnTimeout (delay : Z) (body : Timeout)
| OnInterval (display : nat).

(** The response object [r] a callback receives. *)
Record Reply : Type := { message : JsVal }.

(** [frm.doc] *)
Record Doc : Type := {
  doc_name : string;
  lead_name : JsVal;
  whatsapp_number : JsVal;
  mobile_no : JsVal
}.

(** The call dialog of [show_call_widget]: what its markup shows, the
    notes field, and the [call_data] its primary action closes over. *)
Record CallWidget : Type := {
  cw_visible : bool;
  cw_heading : string;
  cw_phone : string;
  cw_badge : string;
  cw_badge_class : list string;
  cw_timer_shown : bool;
  cw_timer_display : string;
  call_notes : JsVal;
  call_data : JsVal
}.

(** The dialog of [create_message_dialog], with the [window_status] its
    fields were built from. *)
Record Composer : Type := {
  mc_window_status : JsVal;
  mc_visible : bool;
  mc_notice : bool;
  message_type_options : string;
  message_type : JsVal;
  template_name_options : string;
  template_name : JsVal;
  text_message : JsVal;
  template_name_hidden : bool;
  text_message_hidden : bool;
  sync_disabled : bool;
  sync_spin : bool
}.

Record World : Type := {
  doc : Doc;
  trace : list Effect;
  next_id : nat;
  handlers : gmap nat Handler;
  timerInterval : option nat;
  callSeconds : Z;
  calls : gmap nat CallWidget;
  composers : gmap nat Composer
}.

(** ** Computations of the script *)

(** A piece of script: it reads and updates the [World] and returns a value. *)
Definition Script (A : Type) : Type := World -> A * World.

Definition ret {A : Type} (a : A) : Script A := fun w => (a, w).

Definition bind {A B : Type} (m : Script A) (k : A -> Script B) : Script B :=
  fun w => k (fst (m w)) (snd (m w)).

Notation "x <- m ;; k" := (bind m (fun x => k))
  (at level 100, m at next level, right associativity).
Notation "m ;; k" := (bind m (fun _ => k))
  (at level 100, right associativity).

Definition exec (m : Script unit) (w : World) : World := snd (m w).

Definition get : Script World := fun w => (w, w).

Definition emit (e : Effect) : Script unit := fun w =>
  (tt, {| doc := doc w; trace := trace w ++ [e]; next_id := next_id w;
          handlers := handlers w; timerInterval := timerInterval w;
          callSeconds := callSeconds w; calls := calls w;
          composers := composers w |}).

(** The host keeps [h] and answers with a handle that was never used. *)
Definition register (h : Handler) : Script nat := fun w =>
  (next_id w,
   {| doc := doc w; trace := trace w; next_id := S (next_id w);
      handlers := <[next_id w := h]> (handlers w);
      timerInterval := timerInterval w; callSeconds := callSeconds w;
      calls := calls w; composers := composers w |}).

Definition unregister (id : nat) : Script unit := fun w =>
  (tt, {| doc := doc w; trace := trace w; next_id := next_id w;
          handlers := delete id (handlers w);
          timerInterval := timerInterval w; callSeconds := callSeconds w;
          calls := calls w; composers := composers w |}).

Definition set_timerInterval (t : option nat) : Script unit := fun w =>
  (tt, {| doc := doc w; trace := trace w; next_id := next_id w;
          handlers := handlers w; timerInterval := t;
          callSeconds := callSeconds w; calls := calls w;
          composers := composers w |}).

Definition set_callSeconds (n : Z) : Script unit := fun w =>
  (tt, {| doc := doc w; trace := trace w; next_id := next_id w;
          handlers := handlers w; timerInterval := timerInterval w;
          callSeconds := n; calls := calls w; composers := composers w |}).

(** [new frappe.ui.Dialog(...)] for the call widget: the dialog gets a
    handle of its own, like every host object. *)
Definition new_call_dialog (c : CallWidget) : Script nat := fun w =>
  (next_id w,
   {| doc := doc w; trace := trace w; next_id := S (next_id w);
      handlers := handlers w; timerInterval := timerInterval w;
      callSeconds := callSeconds w; calls := <[next_id w := c]> (calls w);
      composers := composers w |}).

(** [new frappe.ui.Dialog(...)] for the message composer. *)
Definition new_composer (c : Composer) : Script nat := fun w =>
  (next_id w,
   {| doc := doc w; trace := trace w; next_id := S (next_id w);
      handlers := handlers w; timerInterval := timerInterval w;
      callSeconds := callSeconds w; calls := calls w;
      composers := <[next_id w := c]> (composers w) |}).

(** A change to what the call dialog [d] shows or holds; nothing happens
    when there is no such dialog. *)
Definition update_call (d : nat) (f : CallWidget -> CallWidget) : Script unit := fun w =>
  (tt, {| doc := doc w; trace := trace w; next_id := next_id w;
          handlers := handlers w; timerInterval := timerInterval w;
          callSeconds := callSeconds w; calls := alter f d (calls w);
          composers := composers w |}).

Definition update_composer (d : nat) (f : Composer -> Composer) : Script unit := fun w =>
  (tt, {| doc := doc w; trace := trace w; next_id := next_id w;
          handlers := handlers w; timerInterval := timerInterval w;
          callSeconds := callSeconds w; calls := calls w;
          composers := alter f d (composers w) |}).

(** *** The host's interface, as the script uses it *)

(** [frappe.call({method, args, freeze, freeze_message, callback})].  The
    script never passes an [error] or [always] option. *)
Definition frappe_call (method : string) (args : list (string * JsVal))
    (freeze_message : option string) (callback : Callback) : Script unit :=
  emit (RemoteCall method args freeze_message) ;;
  _ <- register (OnResponse callback) ;;
  ret tt.

(** [frappe.confirm(message, ifyes)]; the only [ifyes] in the script is the
    one that calls [request_call_permission]. *)
Definition frappe_confirm (msg : string) : Script unit :=
  emit (ConfirmPrompt msg) ;;
  _ <- register OnConfirm ;;
  ret tt.

Definition frappe_msgprint (title : option string) (msg : JsVal)
    (indicator : option string) : Script unit :=
  emit (Msgprint title msg indicator).

Definition frappe_show_alert (msg : JsVal) (indicator : string) : Script unit :=
  emit (ShowAlert msg indicator).

(** [frm.reload_doc()]: the request to the host is recorded.  The reload
    itself comes later and is the host's: it fetches the document again,
    replaces [frm.doc] and runs [refresh].  It is not modelled: [doc] of
    the [World] stays the document as it was, so nothing here speaks of the
    form after a reload has been served. *)
Definition reload_doc : Script unit := emit ReloadDoc.

Definition setTimeout (body : Timeout) (delay : Z) : Script nat :=
  register (OnTimeout delay body).

Definition setInterval (display : nat) : Script nat :=
  register (OnInterval display).

Definition is_timer (h : Handler) : bool :=
  match h with
  | OnTimeout _ _ | OnInterval _ => true
  | _ => false
  end.

(** [clearInterval(t)]: nothing happens when [t] is [undefined] or names no
    running timer. *)
Definition clearInterval (t : option nat) : Script unit :=
  match t with
  | None => ret tt
  | Some id =>
      w <- get ;;
      match handlers w !! id with
      | Some h => if is_timer h then unregister id else ret tt
      | None => ret tt
      end
  end.

(** *** What the script changes in its dialogs *)

Definition cw_show (v : bool) (c : CallWidget) : CallWidget :=
  {| cw_visible := v; cw_heading := cw_heading c; cw_phone := cw_phone c;
     cw_badge := cw_badge c; cw_badge_class := cw_badge_class c;
     cw_timer_shown := cw_timer_shown c; cw_timer_display := cw_timer_display c;
     call_notes := call_notes c; call_data := call_data c |}.

(** [statusBadge.text(t).removeClass(out).addClass(into)] *)
Definition cw_set_badge (t out into : string) (c : CallWidget) : CallWidget :=
  {| cw_visible := cw_visible c; cw_heading := cw_heading c; cw_phone := cw_phone c;
     cw_badge := t;
     cw_badge_class :=
       (let kept := filter (fun k => k ≠ out) (cw_badge_class c) in
        if decide (into ∈ kept) then kept else kept ++ [into]);
     cw_timer_shown := cw_timer_shown c; cw_timer_display := cw_timer_display c;
     call_notes := call_notes c; call_data := call_data c |}.

Definition cw_timer_show (c : CallWidget) : CallWidget :=
  {| cw_visible := cw_visible c; cw_heading := cw_heading c; cw_phone := cw_phone c;
     cw_badge := cw_badge c; cw_badge_class := cw_badge_class c;
     cw_timer_shown := true; cw_timer_display := cw_timer_display c;
     call_notes := call_notes c; call_data := call_data c |}.

Definition cw_set_display (t : string) (c : CallWidget) : CallWidget :=
  {| cw_visible := cw_visible c; cw_heading := cw_heading c; cw_phone := cw_phone c;
     cw_badge := cw_badge c; cw_badge_class := cw_badge_class c;
     cw_timer_shown := cw_timer_shown c; cw_timer_display := t;
     call_notes := call_notes c; call_data := call_data c |}.

Definition cw_set_notes (v : JsVal) (c : CallWidget) : CallWidget :=
  {| cw_visible := cw_visible c; cw_heading := cw_heading c; cw_phone := cw_phone c;
     cw_badge := cw_badge c; cw_badge_class := cw_badge_class c;
     cw_timer_shown := cw_timer_shown c; cw_timer_display := cw_timer_display c;
     call_notes := v; call_data := call_data c |}.

Definition mc_show (v : bool) (c : Composer) : Composer :=
  {| mc_window_status := mc_window_status c;
     mc_visible := v; mc_notice := mc_notice c;
     message_type_options := message_type_options c; message_type := message_type c;
     template_name_options := template_name_options c; template_name := template_name c;
     text_message := text_message c;
     template_name_hidden := template_name_hidden c;
     text_message_hidden := text_message_hidden c;
     sync_disabled := sync_disabled c; sync_spin := sync_spin c |}.

Definition mc_set_message_type (v : JsVal) (c : Composer) : Composer :=
  {| mc_window_status := mc_window_status c;
     mc_visible := mc_visible c; mc_notice := mc_notice c;
     message_type_options := message_type_options c; message_type := v;
     template_name_options := template_name_options c; template_name := template_name c;
     text_message := text_message c;
     template_name_hidden := template_name_hidden c;
     text_message_hidden := text_message_hidden c;
     sync_disabled := sync_disabled c; sync_spin := sync_spin c |}.

Definition mc_set_template_name (v : JsVal) (c : Composer) : Composer :=
  {| mc_window_status := mc_window_status c;
     mc_visible := mc_visible c; mc_notice := mc_notice c;
     message_type_options := message_type_options c; message_type := message_type c;
     template_name_options := template_name_options c; template_name := v;
     text_message := text_message c;
     template_name_hidden := template_name_hidden c;
     text_message_hidden := text_message_hidden c;
     sync_disabled := sync_disabled c; sync_spin := sync_spin c |}.

Definition mc_set_text_message (v : JsVal) (c : Composer) : Composer :=
  {| mc_window_status := mc_window_status c;
     mc_visible := mc_visible c; mc_notice := mc_notice c;
     message_type_options := message_type_options c; message_type := message_type c;
     template_name_options := template_name_options c; template_name := template_name c;
     text_message := v;
     template_name_hidden := template_name_hidden c;
     text_message_hidden := text_message_hidden c;
     sync_disabled := sync_disabled c; sync_spin := sync_spin c |}.

(** [dialog.set_df_property('template_name', 'options', opts)] *)
Definition mc_set_template_options (opts : string) (c : Composer) : Composer :=
  {| mc_window_status := mc_window_status c;
     mc_visible := mc_visible c; mc_notice := mc_notice c;
     message_type_options := message_type_options c; message_type := message_type c;
     template_name_options := opts; template_name := template_name c;
     text_message := text_message c;
     template_name_hidden := template_name_hidden c;
     text_message_hidden := text_message_hidden c;
     sync_disabled := sync_disabled c; sync_spin := sync_spin c |}.

(** The two [set_df_property(..., 'hidden', ...)] of the [onchange] handler. *)
Definition mc_set_hidden (template_hidden text_hidden : bool) (c : Composer) : Composer :=
  {| mc_window_status := mc_window_status c;
     mc_visible := mc_visible c; mc_notice := mc_notice c;
     message_type_options := message_type_options c; message_type := message_type c;
     template_name_options := template_name_options c; template_name := template_name c;
     text_message := text_message c;
     template_name_hidden := template_hidden;
     text_message_hidden := text_hidden;
     sync_disabled := sync_disabled c; sync_spin := sync_spin c |}.

(** The sync button: its spinning icon and its [disabled] property. *)
Definition mc_set_sync (spin disabled : bool) (c : Composer) : Composer :=
  {| mc_window_status := mc_window_status c;
     mc_visible := mc_visible c; mc_notice := mc_notice c;
     message_type_options := message_type_options c; message_type := message_type c;
     template_name_options := template_name_options c; template_name := template_name c;
     text_message := text_message c;
     template_name_hidden := template_name_hidden c;
     text_message_hidden := text_message_hidden c;
     sync_disabled := disabled; sync_spin := spin |}.

(** [dialog.get_value(field)]: [undefined] when there is no such dialog. *)
Definition call_value (d : nat) (field : CallWidget -> JsVal) : Script JsVal :=
  w <- get ;; ret (default JUndefined (field <$> calls w !! d)).

Definition composer_value (d : nat) (field : Composer -> JsVal) : Script JsVal :=
  w <- get ;; ret (default JUndefined (field <$> composers w !! d)).

(** ** The script, function by function *)

(** [args: { lead_id: frm.doc.name }] *)
Definition lead_id : Script (list (string * JsVal)) :=
  w <- get ;; ret [("lead_id", JStr (doc_name (doc w)))].

(** [r.message && r.message.success], as a condition. *)
Definition succeeded (r : Reply) : bool :=
  truthy (message r) && truthy (prop (message r) "success").

(** [r.message ? r.message.error : fallback] *)
Definition error_or (r : Reply) (fallback : string) : JsVal :=
  if truthy (message r) then prop (message r) "error" else JStr fallback.

(** *** Calls *)

Definition start_call : Script unit :=
  args <- lead_id ;;
  frappe_call "walue_whatsapp_client.api.calls.initiate" args
    (Some (__ "Connecting call..." [])) initiate_cb.

Definition request_call_permission : Script unit :=
  args <- lead_id ;;
  frappe_call "walue_whatsapp_client.api.calls.request_permission" args
    (Some (__ "Sending permission request..." [])) request_permission_cb.

Definition request_call_permission_callback (r : Reply) : Script unit :=
  if succeeded r then
    frappe_show_alert
      (JStr (__ "Permission request sent. You will be notified when approved." []))
      "green" ;;
    reload_doc
  else
    frappe_msgprint (Some (__ "Error" []))
      (error_or r (__ "Failed to send request" [])) (Some "red").

Definition initiate_whatsapp_call : Script unit :=
  args <- lead_id ;;
  frappe_call "walue_whatsapp_client.api.calls.check_permission" args None
    check_permission_cb.

Definition initiate_whatsapp_call_callback (r : Reply) : Script unit :=
  if negb (truthy (message r)) then ret tt
  else
    let status := message r in
    if truthy (prop status "can_call") then
      start_call
    else if truthy (prop status "can_request") then
      frappe_confirm
        (js_concat (prop status "message")
           "<br><br>Would you like to send a permission request?")
    else
      frappe_msgprint (Some (__ "Cannot Call" [])) (prop status "message")
        (Some "orange").

Definition startTimer (display : nat) : Script unit :=
  set_callSeconds 0 ;;
  id <- setInterval display ;;
  set_timerInterval (Some id).

(** The function [startTimer] gives to [setInterval]. *)
Definition startTimer_tick (display : nat) : Script unit :=
  w <- get ;;
  set_callSeconds (callSeconds w + 1) ;;
  w <- get ;;
  let mins := padStart 2 "0" (js_to_string (floor_div (JNum (callSeconds w)) 60)) in
  let secs := padStart 2 "0" (js_to_string (js_rem (JNum (callSeconds w)) 60)) in
  update_call display (cw_set_display (mins +:+ ":" +:+ secs)).

Definition initialize_webrtc (data : JsVal) (dialog : nat) : Script unit :=
  _ <- setTimeout (Ringing dialog) 1000 ;;
  _ <- setTimeout (Connected dialog) 3000 ;;
  ret tt.

Definition initialize_webrtc_timeout (body : Timeout) : Script unit :=
  match body with
  | Ringing dialog =>
      update_call dialog (cw_set_badge "Ringing..." "badge-info" "badge-warning")
  | Connected dialog =>
      update_call dialog (cw_set_badge "Connected" "badge-warning" "badge-success") ;;
      update_call dialog cw_timer_show ;;
      startTimer dialog
  end.

(** The colouring of the primary button is left out; everything else the
    dialog shows is in the [CallWidget]. *)
Definition show_call_widget (data : JsVal) : Script unit :=
  w <- get ;;
  dialog <- new_call_dialog
    {| cw_visible := false;
       cw_heading := js_to_string (js_or (lead_name (doc w)) (JStr (doc_name (doc w))));
       cw_phone := js_to_string (js_or (whatsapp_number (doc w)) (mobile_no (doc w)));
       cw_badge := "Connecting...";
       cw_badge_class := ["badge"; "badge-info"];
       cw_timer_shown := false;
       cw_timer_display := "00:00";
       call_notes := JUndefined;
       call_data := data |} ;;
  update_call dialog (cw_show true) ;;
  initialize_webrtc data dialog.

Definition start_call_callback (r : Reply) : Script unit :=
  if succeeded r then
    show_call_widget (message r)
  else
    frappe_msgprint (Some (__ "Call Failed" []))
      (error_or r (__ "Could not initiate call" [])) (Some "red").

Definition end_call (call_log_id : JsVal) (dialog : nat) : Script unit :=
  w <- get ;;
  clearInterval (timerInterval w) ;;
  notes <- call_value dialog call_notes ;;
  frappe_call "walue_whatsapp_client.api.calls.end"
    [("call_log_id", call_log_id); ("notes", notes)] None (end_cb dialog).

Definition end_call_callback (dialog : nat) (r : Reply) : Script unit :=
  update_call dialog (cw_show false) ;;
  if succeeded r then
    let duration := prop (message r) "duration_seconds" in
    let mins := floor_div duration 60 in
    let secs := js_rem duration 60 in
    frappe_show_alert (JStr (__ "Call ended. Duration: {0}m {1}s" [mins; secs]))
      "green" ;;
    reload_doc
  else ret tt.

(** The primary action of the call dialog. *)
Definition call_widget_primary_action (dialog : nat) : Script unit :=
  data <- call_value dialog call_data ;;
  end_call (prop data "call_log_id") dialog.

(** *** Messages *)

Definition handle_send_response (response : Reply) : Script unit :=
  if succeeded response then
    frappe_show_alert (JStr (__ "Message sent successfully" [])) "green" ;;
    reload_doc
  else
    frappe_msgprint (Some (__ "Failed" []))
      (error_or response (__ "Could not send message" [])) (Some "red").

(** [v === s] for a string literal [s]. *)
Definition is_string (v : JsVal) (s : string) : bool :=
  match v with
  | JStr t => String.eqb t s
  | _ => false
  end.

Definition send_message (dialog : nat) : Script unit :=
  type <- composer_value dialog message_type ;;
  if is_string type "Template" then
    name <- composer_value dialog template_name ;;
    if negb (truthy name) then
      frappe_msgprint None (JStr (__ "Please select a template" [])) None
    else
      lead <- lead_id ;;
      frappe_call "walue_whatsapp_client.api.messages.send_template"
        (lead ++ [("template_name", name)])
        (Some (__ "Sending message..." [])) (send_cb dialog)
  else
    text <- composer_value dialog text_message ;;
    if negb (truthy text) then
      frappe_msgprint None (JStr (__ "Please enter a message" [])) None
    else
      lead <- lead_id ;;
      frappe_call "walue_whatsapp_client.api.messages.send_text"
        (lead ++ [("text", text)])
        (Some (__ "Sending message..." [])) (send_cb dialog).

(** The callback of both sends. *)
Definition send_message_callback (dialog : nat) (r : Reply) : Script unit :=
  update_composer dialog (mc_show false) ;;
  handle_send_response r.

(** The [templates] variable of the first [get_templates] callback. *)
Definition templates (r : Reply) : JsVal :=
  if truthy (message r) then
    if is_array (message r) then message r
    else if truthy (prop (message r) "success")
            && truthy (prop (message r) "templates")
    then prop (message r) "templates"
    else JArr []
  else JArr [].

(** The [newTemplates] variable of the refresh after a sync. *)
Definition newTemplates (r2 : Reply) : JsVal :=
  if truthy (message r2) && truthy (prop (message r2) "templates")
  then prop (message r2) "templates"
  else JArr [].

(** [ts.map(t => t.template_name).join('\n')]; [None] is the TypeError
    thrown when [ts] has no [map] or an element has no properties. *)
Definition template_options (ts : JsVal) : option string :=
  match ts with
  | JArr items => js_join nl <$> mapM (fun t => member t "template_name") items
  | _ => None
  end.

(** The [options] of the [message_type] field. *)
Definition message_type_choices (window_status : JsVal) : string :=
  if truthy (prop window_status "in_window")
  then "Template" +:+ nl +:+ "Text Message"
  else "Template".

Definition create_message_dialog (window_status : JsVal) : Script unit :=
  frappe_call "walue_whatsapp_client.api.messages.get_templates" [] None
    (get_templates_cb window_status).

Definition create_message_dialog_callback (window_status : JsVal) (r : Reply)
    : Script unit :=
  let ts := templates r in
  match template_options ts with
  | None => emit TypeError
  | Some opts =>
      dialog <- new_composer
        {| mc_window_status := window_status;
           mc_visible := false;
           mc_notice := negb (truthy (prop window_status "in_window"));
           message_type_options := message_type_choices window_status;
           message_type := JStr "Template";
           template_name_options := opts;
           template_name := JUndefined;
           text_message := JUndefined;
           template_name_hidden := false;
           text_message_hidden := true;
           sync_disabled := false;
           sync_spin := false |} ;;
      update_composer dialog (mc_show true)
  end.

(** The [onchange] of the [message_type] field. *)
Definition message_type_onchange (dialog : nat) : Script unit :=
  type <- composer_value dialog message_type ;;
  update_composer dialog
    (mc_set_hidden (negb (is_string type "Template"))
                   (negb (is_string type "Text Message"))).

(** The click handler of the sync button. *)
Definition sync_templates_click (dialog : nat) : Script unit :=
  update_composer dialog (mc_set_sync true true) ;;
  frappe_call "walue_whatsapp_client.api.messages.sync_templates" [] None
    (sync_templates_cb dialog).

Definition sync_templates_callback (dialog : nat) (r : Reply) : Script unit :=
  update_composer dialog (mc_set_sync false false) ;;
  if succeeded r then
    frappe_show_alert
      (JStr (__ "Synced {0} templates" [prop (message r) "synced_count"])) "green" ;;
    frappe_call "walue_whatsapp_client.api.messages.get_templates" [] None
      (refresh_templates_cb dialog)
  else
    frappe_show_alert (error_or r (__ "Sync failed" [])) "red".

Definition refresh_templates_callback (dialog : nat) (r2 : Reply) : Script unit :=
  match template_options (newTemplates r2) with
  | None => emit TypeError
  | Some options => update_composer dialog (mc_set_template_options options)
  end.

Definition show_message_composer : Script unit :=
  args <- lead_id ;;
  frappe_call "walue_whatsapp_client.api.messages.check_conversation_window" args
    None check_conversation_window_cb.

Definition show_message_composer_callback (r : Reply) : Script unit :=
  let window_status := js_or (message r) (JObj []) in
  create_message_dialog window_status.

(** ** The host's event loop *)

(** What can happen next: the user acts on something the script put on the
    screen, or the host runs a handler the script registered. *)
Inductive Event : Type :=
| ClickWhatsAppCall
| ClickSendMessage
| Response (id : nat) (r : Reply)
| NoResponse (id : nat)
| Answer (id : nat) (yes : bool)
| TimeoutDue (id : nat)
| IntervalDue (id : nat)
| ClickEndCall (dialog : nat)
| TypeNotes (dialog : nat) (v : JsVal)
| CloseDialog (dialog : nat)
| ChooseMessageType (dialog : nat) (v : string)
| ChooseTemplate (dialog : nat) (v : string)
| TypeText (dialog : nat) (v : JsVal)
| ClickSync (dialog : nat)
| ClickSend (dialog : nat).

(** [add_whatsapp_buttons]: the two buttons are added when the lead has a
    number to reach. *)
Definition add_whatsapp_buttons (d : Doc) : bool :=
  truthy (js_or (whatsapp_number d) (mobile_no d)).

Definition run_callback (cb : Callback) (r : Reply) : Script unit :=
  match cb with
  | check_permission_cb => initiate_whatsapp_call_callback r
  | request_permission_cb => request_call_permission_callback r
  | initiate_cb => start_call_callback r
  | end_cb dialog => end_call_callback dialog r
  | check_conversation_window_cb => show_message_composer_callback r
  | get_templates_cb window_status => create_message_dialog_callback window_status r
  | sync_templates_cb dialog => sync_templates_callback dialog r
  | refresh_templates_cb dialog => refresh_templates_callback dialog r
  | send_cb dialog => send_message_callback dialog r
  end.

(** The lines of an [options] string. *)
Fixpoint option_lines_from (line : string) (s : string) : list string :=
  match s with
  | EmptyString => [line]
  | String c rest =>
      if Ascii.eqb c "010" then line :: option_lines_from EmptyString rest
      else option_lines_from (line +:+ String c EmptyString) rest
  end.

Definition option_lines (s : string) : list string := option_lines_from EmptyString s.

Definition offered (v : string) (options : string) : bool :=
  bool_decide (v ∈ option_lines options).

(** One turn of the event loop.  An event that names nothing on the screen
    and no registered handler changes nothing.
    - A response runs the [callback] of its request.  When no response
      arrives the host drops the request: the script gave it no [error] or
      [always] function to run.
    - A confirmation prompt runs its function on "yes" only.
    - A timeout runs once, an interval stays registered.
    - A hidden dialog takes no clicks, and a disabled button fires no
      click handler.
    - Closing a dialog hides it; the script attached nothing to that. *)
Definition step (w : World) (ev : Event) : World :=
  match ev with
  | ClickWhatsAppCall =>
      if add_whatsapp_buttons (doc w) then exec initiate_whatsapp_call w else w
  | ClickSendMessage =>
      if add_whatsapp_buttons (doc w) then exec show_message_composer w else w
  | Response id r =>
      match handlers w !! id with
      | Some (OnResponse cb) => exec (unregister id ;; run_callback cb r) w
      | _ => w
      end
  | NoResponse id =>
      match handlers w !! id with
      | Some (OnResponse cb) => exec (unregister id) w
      | _ => w
      end
  | Answer id yes =>
      match handlers w !! id with
      | Some OnConfirm =>
          exec (unregister id ;; if yes then request_call_permission else ret tt) w
      | _ => w
      end
  | TimeoutDue id =>
      match handlers w !! id with
      | Some (OnTimeout _ body) => exec (unregister id ;; initialize_webrtc_timeout body) w
      | _ => w
      end
  | IntervalDue id =>
      match handlers w !! id with
      | Some (OnInterval display) => exec (startTimer_tick display) w
      | _ => w
      end
  | ClickEndCall dialog =>
      match calls w !! dialog with
      | Some c => if cw_visible c then exec (call_widget_primary_action dialog) w else w
      | None => w
      end
  | TypeNotes dialog v =>
      match calls w !! dialog with
      | Some c => if cw_visible c then exec (update_call dialog (cw_set_notes v)) w else w
      | None => w
      end
  | CloseDialog dialog =>
      exec (update_call dialog (cw_show false) ;;
            update_composer dialog (mc_show false)) w
  | ChooseMessageType dialog v =>
      match composers w !! dialog with
      | Some c =>
          if mc_visible c && offered v (message_type_options c) then
            exec (update_composer dialog (mc_set_message_type (JStr v)) ;;
                  message_type_onchange dialog) w
          else w
      | None => w
      end
  | ChooseTemplate dialog v =>
      match composers w !! dialog with
      | Some c =>
          if mc_visible c && negb (template_name_hidden c)
             && offered v (template_name_options c) then
            exec (update_composer dialog (mc_set_template_name (JStr v))) w
          else w
      | None => w
      end
  | TypeText dialog v =>
      match composers w !! dialog with
      | Some c =>
          if mc_visible c && negb (text_message_hidden c) then
            exec (update_composer dialog (mc_set_text_message v)) w
          else w
      | None => w
      end
  | ClickSync dialog =>
      match composers w !! dialog with
      | Some c =>
          if mc_visible c && negb (sync_disabled c) then
            exec (sync_templates_click dialog) w
          else w
      | None => w
      end
  | ClickSend dialog =>
      match composers w !! dialog with
      | Some c => if mc_visible c then exec (send_message dialog) w else w
      | None => w
      end
  end.

Definition run (w : World) (evs : list Event) : World := foldl step w evs.

(** The form of a saved lead, before anything was clicked. *)
Definition opened (d : Doc) : World :=
  {| doc := d; trace := []; next_id := 0; handlers := ∅;
     timerInterval := None; callSeconds := 0; calls := ∅; composers := ∅ |}.


(** ** What is said about runs *)

(** Running [m] takes every world to one that is [R]-related to it. *)
Definition respects {A : Type} (R : relation World) (m : Script A) : Prop :=
  forall w, R w (snd (m w)).

(** [w'] has the lead of [w], and its trace is the trace of [w] followed by
    effects that are all [ok]. *)
Definition appends (ok : Effect -> Prop) : relation World :=
  fun w w' =>
    doc w' = doc w
    /\ exists new, trace w' = trace w ++ new /\ Forall ok new.

(** [e] is a request to the backend method [method]. *)
Definition is_call (method : string) (e : Effect) : bool :=
  match e with
  | RemoteCall m _ _ => String.eqb m method
  | _ => false
  end.

Definition check_permission : string :=
  "walue_whatsapp_client.api.calls.check_permission".

Definition request_permission : string :=
  "walue_whatsapp_client.api.calls.request_permission".

Definition initiate : string := "walue_whatsapp_client.api.calls.initiate".

Definition send_text : string := "walue_whatsapp_client.api.messages.send_text".

Definition no_permission_request (e : Effect) : Prop :=
  is_call request_permission e = false.

Definition no_send_text (e : Effect) : Prop := is_call send_text e = false.

(** A composer built from a [window_status] whose [in_window] is falsy
    offers "Template" only and has it selected. *)
Definition template_only_composer (c : Composer) : Prop :=
  truthy (prop (mc_window_status c) "in_window") = false ->
  message_type_options c = "Template" /\ message_type c = JStr "Template".

Definition template_only (w : World) : Prop :=
  forall d c, composers w !! d = Some c -> template_only_composer c.

Definition keeps_template_only : relation World :=
  fun w w' => template_only w -> template_only w'.

(** ** A lead to run the script on *)

Definition lead : Doc :=
  {| doc_name := "LEAD-1"; lead_name := JStr "Ann";
     whatsapp_number := JStr "15550100"; mobile_no := JNull |}.

(** The form after a click on the call button: request 0 is the permission
    check. *)
Definition call_clicked : World := step (opened lead) ClickWhatsAppCall.

(** Three answers of the permission check. *)
Definition granted : list (string * JsVal) :=
  [("can_call", JBool true); ("can_request", JBool false);
   ("message", JStr "Permission granted")].

Definition requestable : list (string * JsVal) :=
  [("can_call", JBool false); ("can_request", JBool true);
   ("message", JStr "No call permission yet.")].

Definition blocked : list (string * JsVal) :=
  [("can_call", JBool false); ("can_request", JBool false);
   ("message", JStr "Permission was declined.")].

(** The backend's answer to [initiate]. *)
Definition call_started : list (string * JsVal) :=
  [("success", JBool true); ("call_log_id", JStr "C1")].

(** Permission was granted and the call set up: dialog 2 is the call
    widget, and timeouts 3 and 4 are pending. *)
Definition connecting : World :=
  run call_clicked
    [Response 0 {| message := JObj granted |};
     Response 1 {| message := JObj call_started |}].

(** Both timeouts have run: the badge says "Connected", and handler 5 is
    the running one-second timer. *)
Definition connected : World := run connecting [TimeoutDue 3; TimeoutDue 4].

(** The user has pressed "End Call": request 6 is the [end] request. *)
Definition ending : World := step connected (ClickEndCall 2).

(** The template list [[{template_name: "A"}, {template_name: "B"}]]. *)
Definition two_templates : list JsVal :=
  [JObj [("template_name", JStr "A")]; JObj [("template_name", JStr "B")]].

(** The window status of a lead outside the conversation window. *)
Definition outside_window : JsVal := JObj [("in_window", JBool false)].

(** The composer of that lead, with two templates to choose from: dialog 2. *)
Definition composing : World :=
  run (opened lead)
    [ClickSendMessage;
     Response 0 {| message := outside_window |};
     Response 1 {| message := JArr two_templates |}].


(** The user has pressed the sync button, the sync has succeeded, and
    request 4 is the second [get_templates]. *)
Definition refreshing : World :=
  run composing
    [ClickSync 2;
     Response 3 {| message := JObj [("success", JBool true); ("synced_count", JNum 2)] |}].

(** The same composer with the message type and the text set from outside
    the dialog's own choices, as [dialog.set_value] would. *)
Definition forced_text : World :=
  exec (update_composer 2 (mc_set_message_type (JStr "Text Message")) ;;
        update_composer 2 (mc_set_text_message (JStr "hello"))) composing.

(** ** The rest of the two scripts *)

(** [walue_whatsapp.format_duration(seconds)] of the client's main script. *)
Definition format_duration (seconds : JsVal) : string :=
  if negb (truthy seconds) then "00:00"
  else
    let mins := padStart 2 "0" (js_to_string (floor_div seconds 60)) in
    let secs := padStart 2 "0" (js_to_string (js_rem seconds 60)) in
    mins +:+ ":" +:+ secs.

(** What [refresh] asks of the form, in the order it asks. *)
Inductive FormOp : Type :=
| RemoveButton (label : string)
| AddButton (label group : string)
| ChangeButtonType (label group type : string)
| RealtimeOn (event : string).

(** The calls [add_whatsapp_buttons] makes on the form. *)
Definition add_whatsapp_buttons_calls (d : Doc) : list FormOp :=
  [RemoveButton (__ "WhatsApp Call" []); RemoveButton (__ "Send WhatsApp" [])]
  ++ (let phone := js_or (whatsapp_number d) (mobile_no d) in
      if negb (truthy phone) then []
      else
        [AddButton (__ "WhatsApp Call" []) (__ "WhatsApp" []);
         AddButton (__ "Send Message" []) (__ "WhatsApp" []);
         ChangeButtonType (__ "WhatsApp Call" []) "WhatsApp" "success";
         ChangeButtonType (__ "Send Message" []) "WhatsApp" "primary"]).

(** The three functions [setup_realtime_listeners] gives to
    [frappe.realtime.on]. *)
Inductive Listener : Type :=
| whatsapp_permission_update
| whatsapp_new_message
| whatsapp_message_status.

Definition event_name (l : Listener) : string :=
  match l with
  | whatsapp_permission_update => "whatsapp_permission_update"
  | whatsapp_new_message => "whatsapp_new_message"
  | whatsapp_message_status => "whatsapp_message_status"
  end.

Definition setup_realtime_listeners : list Listener :=
  [whatsapp_permission_update; whatsapp_new_message; whatsapp_message_status].

(** The [refresh] handler of the form: the calls on the form, and the
    listeners it adds.  A lead that is not saved yet gets neither. *)
Definition refresh (is_new : bool) (d : Doc) : list FormOp * list Listener :=
  if negb is_new then
    (add_whatsapp_buttons_calls d
       ++ map (fun l => RealtimeOn (event_name l)) setup_realtime_listeners,
     setup_realtime_listeners)
  else ([], []).

(** The body of a listener, for event data that is an object. *)
Definition realtime_callback (l : Listener) (data : JsVal) : Script unit :=
  w <- get ;;
  match l with
  | whatsapp_permission_update =>
      if is_string (prop data "lead") (doc_name (doc w)) then
        frappe_show_alert
          (JStr (if truthy (prop data "can_call")
                 then __ "Call permission granted! You can now call this lead." []
                 else __ "Call permission status updated" []))
          (if truthy (prop data "can_call") then "green" else "orange") ;;
        reload_doc
      else ret tt
  | whatsapp_new_message =>
      if is_string (prop data "lead") (doc_name (doc w)) then
        frappe_show_alert (JStr (__ "New WhatsApp message received" [])) "blue" ;;
        reload_doc
      else ret tt
  | whatsapp_message_status => ret tt
  end.

Fixpoint run_listeners (ls : list Listener) (data : JsVal) : Script unit :=
  match ls with
  | [] => ret tt
  | l :: rest => realtime_callback l data ;; run_listeners rest data
  end.

(** The realtime channel delivers [event] with [data]: the listeners
    registered for it run in the order they were added.  Each of them
    starts by reading [data.lead], so that [undefined] or [null] data makes
    the first one throw, which ends the delivery. *)
Definition realtime (listeners : list Listener) (event : string) (data : JsVal)
    : Script unit :=
  match filter (fun l => event_name l = event) listeners with
  | [] => ret tt
  | hit =>
      match member data "lead" with
      | None => emit TypeError
      | Some _ => run_listeners hit data
      end
  end.

(** The listeners on the channel after the form was refreshed [n] times. *)
Fixpoint refreshed (is_new : bool) (d : Doc) (n : nat) : list Listener :=
  match n with
  | O => []
  | S k => refreshed is_new d k ++ snd (refresh is_new d)
  end.

(** What one listener for [whatsapp_new_message] does for its lead. *)
Definition new_message_notice : list Effect :=
  [ShowAlert (JStr "New WhatsApp message received") "blue"; ReloadDoc].

(** The title and the fallback text of the message box a callback shows
    when its request failed; [None] for the callbacks that have no such
    branch. *)
Definition failure_notice (cb : Callback) : option (string * string) :=
  match cb with
  | request_permission_cb => Some ("Error", "Failed to send request")
  | initiate_cb => Some ("Call Failed", "Could not initiate call")
  | send_cb _ => Some ("Failed", "Could not send message")
  | _ => None
  end.

(** The text of the alert a callback shows before it reloads the document,
    when its request succeeded. *)
Definition success_notice (cb : Callback) : option string :=
  match cb with
  | request_permission_cb =>
      Some "Permission request sent. You will be notified when approved."
  | send_cb _ => Some "Message sent successfully"
  | _ => None
  end.

(** The input of the composer that [send_message] reads. *)
Definition chosen_input (c : Composer) : JsVal :=
  if is_string (message_type c) "Template" then template_name c else text_message c.

Definition send_template : string :=
  "walue_whatsapp_client.api.messages.send_template".



(** The events that come neither from a button nor from the backend: the
    timers, typing and choosing in a dialog, closing it, a request that
    gets no response, a declined confirmation. *)
Definition passive (ev : Event) : bool :=
  match ev with
  | TimeoutDue _ | IntervalDue _ | TypeNotes _ _ | CloseDialog _
  | ChooseMessageType _ _ | ChooseTemplate _ _ | TypeText _ _
  | NoResponse _ | Answer _ false => true
  | _ => false
  end.

(** [undefined] or [null] *)
Definition nullish (v : JsVal) : bool :=
  match v with
  | JUndefined | JNull => true
  | _ => false
  end.

(** A request names the lead of the form [d], if it names a lead at all. *)
Definition for_lead (d : Doc) (e : Effect) : Prop :=
  match e with
  | RemoteCall _ args _ =>
      assoc "lead_id" args = JUndefined \/ assoc "lead_id" args = JStr (doc_name d)
  | _ => True
  end.

(** From a world on the lead [d], only requests for [d] are added. *)
Definition stays_on_lead (d : Doc) : relation World :=
  fun w w' => doc w = d -> appends (for_lead d) w w'.

(** The composer shows the input that belongs to the chosen message type,
    and hides the other one. *)
Definition shows_chosen_input (c : Composer) : Prop :=
  (message_type_options c = "Template"
   \/ message_type_options c = "Template" +:+ nl +:+ "Text Message")
  /\ ((message_type c = JStr "Template"
       /\ template_name_hidden c = false /\ text_message_hidden c = true)
      \/ (message_type c = JStr "Text Message"
          /\ template_name_hidden c = true /\ text_message_hidden c = false)).

Definition chosen_inputs_shown (w : World) : Prop :=
  forall d c, composers w !! d = Some c -> shows_chosen_input c.

Definition keeps_chosen_inputs : relation World :=
  fun w w' => chosen_inputs_shown w -> chosen_inputs_shown w'.

(** Every handle in use lies below the next one to be handed out. *)
Definition handles_fresh (w : World) : Prop :=
  (forall i h, handlers w !! i = Some h -> (i < next_id w)%nat)
  /\ (forall i c, calls w !! i = Some c -> (i < next_id w)%nat)
  /\ (forall i c, composers w !! i = Some c -> (i < next_id w)%nat).

Definition keeps_handles_fresh : relation World :=
  fun w w' => handles_fresh w -> handles_fresh w'.

(** The [end] request of a call dialog. *)
Definition end_request (c : CallWidget) : Effect :=
  RemoteCall "walue_whatsapp_client.api.calls.end"
    [("call_log_id", prop (call_data c) "call_log_id"); ("notes", call_notes c)]
    None.

(** A call is connected and its dialog dismissed; then a second call is
    set up and connected: dialog 8, with timer 11, while timer 5 of the
    first call is still registered. *)
Definition two_calls : list Event :=
  [ClickWhatsAppCall;
   Response 0 {| message := JObj granted |};
   Response 1 {| message := JObj call_started |};
   TimeoutDue 3; TimeoutDue 4;
   CloseDialog 2; ClickWhatsAppCall;
   Response 6 {| message := JObj granted |};
   Response 7 {| message := JObj call_started |};
   TimeoutDue 9; TimeoutDue 10].

(** The sync request of the composer is in flight: request 3. *)
Definition syncing : World := step composing (ClickSync 2).

(** The composer with template "A" chosen, after Send: request 3. *)
Definition sending : World := run composing [ChooseTemplate 2 "A"; ClickSend 2].

(** ** Properties that every piece of script respects *)

Section Respects.

Context (R : relation World) `{!PreOrder R}.

Lemma respects_ret {A : Type} (a : A) : respects R (ret a).
Proof. intros w. reflexivity. Qed.

Lemma respects_get : respects R get.
Proof. intros w. reflexivity. Qed.

Lemma respects_bind {A B : Type} (m : Script A) (k : A -> Script B) :
  respects R m -> (forall a, respects R (k a)) -> respects R (bind m k).
Proof.
  intros Hm Hk w. unfold bind.
  transitivity (snd (m w)); [apply Hm | apply Hk].
Qed.

Lemma respects_exec (m : Script unit) (w : World) : respects R m -> R w (exec m w).
Proof. intros H. exact (H w). Qed.

Lemma respects_foldl (f : World -> Event -> World) (evs : list Event) (w : World) :
  Forall (fun ev => forall w', R w' (f w' ev)) evs -> R w (foldl f w evs).
Proof.
  revert w. induction evs as [| ev evs IH]; intros w Hevs; cbn [foldl].
  - reflexivity.
  - inversion Hevs as [| ? ? Hev Hrest]; subst.
    transitivity (f w ev); [apply Hev | apply IH, Hrest].
Qed.

End Respects.

Create HintDb respects discriminated.

Ltac respects_unfold :=
  progress unfold
    start_call, request_call_permission, request_call_permission_callback,
    initiate_whatsapp_call, initiate_whatsapp_call_callback, startTimer,
    startTimer_tick, initialize_webrtc, initialize_webrtc_timeout,
    show_call_widget, start_call_callback, end_call, end_call_callback,
    call_widget_primary_action, handle_send_response, send_message,
    send_message_callback, create_message_dialog, create_message_dialog_callback,
    message_type_onchange, sync_templates_click, sync_templates_callback,
    refresh_templates_callback, show_message_composer,
    show_message_composer_callback, run_callback,
    frappe_call, frappe_confirm, frappe_msgprint, frappe_show_alert, reload_doc,
    setTimeout, setInterval, clearInterval, call_value, composer_value, lead_id.

(** Breaks a script into its primitive steps and closes each with the hints
    of the relation at hand. *)
Ltac respects_step :=
  match goal with
  | |- respects _ (bind _ _) => apply respects_bind; [ typeclasses eauto | | intros ? ]
  | |- respects _ (ret _) => apply respects_ret; typeclasses eauto
  | |- respects _ get => apply respects_get; typeclasses eauto
  | |- respects _ (if ?b then _ else _) => destruct b eqn:?
  | |- respects _ (match ?x with _ => _ end) => destruct x eqn:?
  | |- respects _ _ => solve [ eauto with respects ]
  end.

Ltac respects_all := repeat first [ respects_step | respects_unfold ].

(** *** The trace only grows, and the lead stays the same *)

#[local] Instance appends_preorder (ok : Effect -> Prop) : PreOrder (appends ok).
Proof.
  split.
  - intros w. split; [reflexivity |]. exists [].
    rewrite app_nil_r. split; [reflexivity | constructor].
  - intros a b c (D1 & n1 & E1 & F1) (D2 & n2 & E2 & F2).
    split; [congruence |]. exists (n1 ++ n2).
    rewrite E2, E1, app_assoc. split; [reflexivity |].
    apply Forall_app. split; assumption.
Qed.

Section Appends.

Variable ok : Effect -> Prop.

Lemma appends_silent {A : Type} (m : Script A) :
  (forall w, doc (snd (m w)) = doc w /\ trace (snd (m w)) = trace w) ->
  respects (appends ok) m.
Proof.
  intros H w. destruct (H w) as [D T]. split; [exact D |].
  exists []. rewrite T, app_nil_r. split; [reflexivity | constructor].
Qed.

Lemma appends_register h : respects (appends ok) (register h).
Proof. apply appends_silent. split; reflexivity. Qed.

Lemma appends_unregister id : respects (appends ok) (unregister id).
Proof. apply appends_silent. split; reflexivity. Qed.

Lemma appends_set_timerInterval t : respects (appends ok) (set_timerInterval t).
Proof. apply appends_silent. split; reflexivity. Qed.

Lemma appends_set_callSeconds n : respects (appends ok) (set_callSeconds n).
Proof. apply appends_silent. split; reflexivity. Qed.

Lemma appends_new_call_dialog c : respects (appends ok) (new_call_dialog c).
Proof. apply appends_silent. split; reflexivity. Qed.

Lemma appends_new_composer c : respects (appends ok) (new_composer c).
Proof. apply appends_silent. split; reflexivity. Qed.

Lemma appends_update_call d f : respects (appends ok) (update_call d f).
Proof. apply appends_silent. split; reflexivity. Qed.

Lemma appends_update_composer d f : respects (appends ok) (update_composer d f).
Proof. apply appends_silent. split; reflexivity. Qed.

Lemma appends_emit e : ok e -> respects (appends ok) (emit e).
Proof.
  intros He w. split; [reflexivity |].
  exists [e]. split; [reflexivity | repeat constructor; exact He].
Qed.

Lemma appends_exec (m : Script unit) (w : World) :
  respects (appends ok) m -> appends ok w (exec m w).
Proof. intros H. exact (H w). Qed.

Lemma appends_run (evs : list Event) (w : World) :
  Forall (fun ev => forall w', appends ok w' (step w' ev)) evs ->
  appends ok w (run w evs).
Proof. apply (respects_foldl (appends ok)). Qed.

End Appends.

#[local] Hint Resolve appends_register appends_unregister appends_set_timerInterval
  appends_set_callSeconds appends_new_call_dialog appends_new_composer
  appends_update_call appends_update_composer : respects.

Ltac appends_all :=
  respects_all;
  try (apply appends_emit; first [ reflexivity | exact I ]).

(** Whatever happens, short of a "yes" to a confirmation prompt, sends no
    [request_permission]. *)
Lemma step_no_permission_request (w : World) (ev : Event) :
  (forall i, ev <> Answer i true) ->
  appends no_permission_request w (step w ev).
Proof.
  intros Hev. destruct ev; unfold step;
    try match goal with
      | yes : bool |- _ => destruct yes; [ | ]
      end;
    repeat match goal with
      | |- context [match ?x with _ => _ end] => destruct x
      end;
    try reflexivity;
    try (apply appends_exec; appends_all; fail).
  exfalso. apply (Hev id). reflexivity.
Qed.

Lemma run_no_permission_request (evs : list Event) (w : World) :
  Forall (fun ev => forall i, ev <> Answer i true) evs ->
  appends no_permission_request w (run w evs).
Proof.
  intros Hevs. apply appends_run.
  eapply Forall_impl; [exact Hevs |].
  intros ev Hev w'. apply step_no_permission_request, Hev.
Qed.

(** The form stays on its lead. *)
Lemma step_appends (w : World) (ev : Event) : appends (fun _ => True) w (step w ev).
Proof.
  destruct ev; unfold step;
    repeat match goal with
      | |- context [match ?x with _ => _ end] => destruct x
      end;
    try reflexivity;
    apply appends_exec; appends_all.
Qed.

Lemma run_keeps_doc (evs : list Event) (w : World) : doc (run w evs) = doc w.
Proof.
  enough (appends (fun _ => True) w (run w evs)) as [D _] by exact D.
  apply appends_run.
  apply Forall_forall. intros ev _ w'. apply step_appends.
Qed.

(** *** Outside the window the message type stays "Template" *)

#[local] Instance keeps_template_only_preorder : PreOrder keeps_template_only.
Proof.
  split.
  - intros w H. exact H.
  - intros a b c Hab Hbc H. apply Hbc, Hab, H.
Qed.

Lemma template_only_untouched {A : Type} (m : Script A) :
  (forall w, composers (snd (m w)) = composers w) ->
  respects keeps_template_only m.
Proof. intros H w Hw d c. rewrite H. apply Hw. Qed.

Lemma template_only_emit e : respects keeps_template_only (emit e).
Proof. apply template_only_untouched. reflexivity. Qed.

Lemma template_only_register h : respects keeps_template_only (register h).
Proof. apply template_only_untouched. reflexivity. Qed.

Lemma template_only_unregister id : respects keeps_template_only (unregister id).
Proof. apply template_only_untouched. reflexivity. Qed.

Lemma template_only_set_timerInterval t :
  respects keeps_template_only (set_timerInterval t).
Proof. apply template_only_untouched. reflexivity. Qed.

Lemma template_only_set_callSeconds n :
  respects keeps_template_only (set_callSeconds n).
Proof. apply template_only_untouched. reflexivity. Qed.

Lemma template_only_new_call_dialog c :
  respects keeps_template_only (new_call_dialog c).
Proof. apply template_only_untouched. reflexivity. Qed.

Lemma template_only_update_call d f :
  respects keeps_template_only (update_call d f).
Proof. apply template_only_untouched. reflexivity. Qed.

Lemma template_only_new_composer c :
  template_only_composer c -> respects keeps_template_only (new_composer c).
Proof.
  intros Hc w Hw d c'. cbn -[insert lookup].
  destruct (decide (next_id w = d)) as [-> | Hne].
  - rewrite lookup_insert_eq. intros [= <-]. exact Hc.
  - rewrite lookup_insert_ne by exact Hne. apply Hw.
Qed.

(** A change to one composer that keeps it template-only. *)
Lemma template_only_update_at (w : World) (d : nat) (f : Composer -> Composer) :
  (forall c, composers w !! d = Some c ->
             template_only_composer c -> template_only_composer (f c)) ->
  keeps_template_only w (snd (update_composer d f w)).
Proof.
  intros Hf Hw d' c'. cbn -[alter lookup].
  destruct (decide (d = d')) as [<- | Hne].
  - rewrite lookup_alter_eq.
    destruct (composers w !! d) as [c |] eqn:E; cbn; [| discriminate].
    intros [= <-]. apply (Hf c eq_refl), (Hw d c E).
  - rewrite lookup_alter_ne by exact Hne. apply Hw.
Qed.

(** Every change but the choice of a message type leaves alone what the
    property speaks of. *)
Lemma template_only_update_composer d f :
  (forall c, mc_window_status (f c) = mc_window_status c
             /\ message_type_options (f c) = message_type_options c
             /\ message_type (f c) = message_type c) ->
  respects keeps_template_only (update_composer d f).
Proof.
  intros Hf w. apply template_only_update_at.
  intros c _ Hc. destruct (Hf c) as (E1 & E2 & E3).
  unfold template_only_composer. rewrite E1, E2, E3. exact Hc.
Qed.

#[local] Hint Resolve template_only_emit template_only_register
  template_only_unregister template_only_set_timerInterval
  template_only_set_callSeconds template_only_new_call_dialog
  template_only_update_call : respects.

Lemma template_only_choices (window_status : JsVal) :
  truthy (prop window_status "in_window") = false ->
  message_type_choices window_status = "Template".
Proof. intros H. unfold message_type_choices. rewrite H. reflexivity. Qed.

Ltac template_only_all :=
  respects_all;
  first
    [ apply template_only_update_composer; intros ?; repeat split
    | apply template_only_new_composer; intros ?; split;
      [ apply template_only_choices; assumption | reflexivity ] ].

Lemma offered_template_only (v : string) : offered v "Template" = true -> v = "Template".
Proof.
  unfold offered. intros H. apply bool_decide_eq_true in H.
  cbn in H. apply list_elem_of_singleton in H. exact H.
Qed.

Lemma step_template_only (w : World) (ev : Event) :
  keeps_template_only w (step w ev).
Proof.
  destruct ev; unfold step;
    repeat match goal with
      | |- context [match ?x with _ => _ end] => destruct x eqn:?
      end;
    try reflexivity;
    try (apply (respects_exec keeps_template_only); template_only_all; fail).
  (* the choice of a message type *)
  unfold exec, bind. cbn [fst snd].
  transitivity (snd (update_composer dialog (mc_set_message_type (JStr v)) w)).
  - apply template_only_update_at. intros c' Ec' Hc' Hout.
    destruct (Hc' Hout) as [Ho _]. split; [exact Ho |].
    match goal with
    | H : composers w !! dialog = Some ?c |- _ =>
        rewrite H in Ec'; injection Ec' as <-
    end.
    match goal with
    | H : (_ && offered v _) = true |- _ =>
        apply andb_prop in H; destruct H as [_ H]; rewrite Ho in H;
        apply offered_template_only in H; rewrite H
    end.
    reflexivity.
  - apply (respects_exec keeps_template_only). template_only_all.
Qed.

Lemma run_template_only (d : Doc) (evs : list Event) :
  template_only (run (opened d) evs).
Proof.
  apply (respects_foldl keeps_template_only step evs (opened d)).
  - apply Forall_forall. intros ev _ w'. apply step_template_only.
  - intros i c Hc. cbn in Hc. rewrite lookup_empty in Hc. discriminate.
Qed.

(** ** The permission check decides what a call request does *)

(** A click on the call button asks the backend for the permission status
    of the lead, and waits for the answer. *)
Lemma call_click_checks_permission (w : World) :
  add_whatsapp_buttons (doc w) = true ->
  trace (step w ClickWhatsAppCall)
    = trace w ++ [RemoteCall check_permission [("lead_id", JStr (doc_name (doc w)))] None]
  /\ handlers (step w ClickWhatsAppCall) !! next_id w
     = Some (OnResponse check_permission_cb).
Proof.
  intros Hb. unfold step. rewrite Hb. split; [reflexivity |].
  cbn -[insert lookup]. apply lookup_insert_eq.
Qed.

Lemma call_clicked_handler :
  handlers call_clicked !! 0%nat = Some (OnResponse check_permission_cb).
Proof. reflexivity. Qed.

(** C1.  When the permission check answers with a status whose [can_call]
    is true, the callback does what [start_call] does and nothing else: the
    one effect is the [initiate] request for the lead of the form, with no
    confirmation prompt, message box or alert before it. *)
Theorem can_call_starts_call (w : World) (id : nat) (status : list (string * JsVal)) :
  handlers w !! id = Some (OnResponse check_permission_cb) ->
  truthy (assoc "can_call" status) = true ->
  step w (Response id {| message := JObj status |})
    = exec start_call (exec (unregister id) w)
  /\ trace (step w (Response id {| message := JObj status |}))
     = trace w ++ [RemoteCall initiate [("lead_id", JStr (doc_name (doc w)))]
                     (Some "Connecting call...")].
Proof.
  intros Hh Hc. unfold step. rewrite Hh.
  unfold run_callback, initiate_whatsapp_call_callback.
  cbn -[insert delete lookup]. rewrite Hc. split; reflexivity.
Qed.

Lemma can_call_starts_call_witness :
  step call_clicked (Response 0 {| message := JObj granted |})
    = exec start_call (exec (unregister 0) call_clicked)
  /\ trace (step call_clicked (Response 0 {| message := JObj granted |}))
     = trace call_clicked
         ++ [RemoteCall initiate [("lead_id", JStr (doc_name (doc call_clicked)))]
               (Some "Connecting call...")].
Proof.
  apply (can_call_starts_call call_clicked 0 granted); reflexivity.
Defined.

(** C4.  When the status has [can_call] false and [can_request] true, the
    callback only shows the confirmation prompt with the status message.
    Whatever happens afterwards, no [request_permission] request is made as
    long as no prompt is answered with yes; declining this prompt discards
    it without any request; confirming it makes the request. *)
Theorem permission_request_waits_for_confirmation
    (w : World) (id : nat) (status : list (string * JsVal)) :
  handlers w !! id = Some (OnResponse check_permission_cb) ->
  truthy (assoc "can_call" status) = false ->
  truthy (assoc "can_request" status) = true ->
  let w1 := step w (Response id {| message := JObj status |}) in
  let prompt := next_id w in
  trace w1
    = trace w ++ [ConfirmPrompt (js_to_string (assoc "message" status) +:+
                    "<br><br>Would you like to send a permission request?")]
  /\ handlers w1 = <[prompt := OnConfirm]> (delete id (handlers w))
  /\ (forall evs, Forall (fun ev => forall i, ev <> Answer i true) evs ->
        exists new, trace (run w1 evs) = trace w1 ++ new
                    /\ Forall no_permission_request new)
  /\ (trace (step w1 (Answer prompt false)) = trace w1
      /\ handlers (step w1 (Answer prompt false)) !! prompt = None)
  /\ trace (step w1 (Answer prompt true))
     = trace w1 ++ [RemoteCall request_permission
                      [("lead_id", JStr (doc_name (doc w)))]
                      (Some "Sending permission request...")].
Proof.
  intros Hh Hc Hr w1 prompt.
  assert (E : w1 = exec (frappe_confirm
                 (js_to_string (assoc "message" status) +:+
                    "<br><br>Would you like to send a permission request?"))
                 (exec (unregister id) w)).
  { unfold w1, step. rewrite Hh.
    unfold run_callback, initiate_whatsapp_call_callback.
    cbn -[insert delete lookup]. rewrite Hc, Hr. reflexivity. }
  split; [rewrite E; reflexivity |].
  split; [rewrite E; reflexivity |].
  split; [intros evs Hevs; apply run_no_permission_request; exact Hevs |].
  assert (Hp : handlers w1 !! prompt = Some OnConfirm).
  { rewrite E. cbn -[insert delete lookup]. apply lookup_insert_eq. }
  unfold step. rewrite Hp. rewrite E.
  cbn -[insert delete lookup].
  repeat split. apply lookup_delete_eq.
Qed.

Lemma permission_request_waits_for_confirmation_witness :
  let w1 := step call_clicked (Response 0 {| message := JObj requestable |}) in
  trace (step w1 (Answer 1 true))
  = trace w1 ++ [RemoteCall request_permission [("lead_id", JStr "LEAD-1")]
                   (Some "Sending permission request...")].
Proof.
  apply (permission_request_waits_for_confirmation call_clicked 0 requestable);
    reflexivity.
Defined.

(** C5.  When the status has neither [can_call] nor [can_request], the
    callback shows the status message in a message box and does nothing
    else: no request of any kind is sent, and nothing is left registered
    that could send one later. *)
Theorem blocked_only_shows_message
    (w : World) (id : nat) (status : list (string * JsVal)) :
  handlers w !! id = Some (OnResponse check_permission_cb) ->
  truthy (assoc "can_call" status) = false ->
  truthy (assoc "can_request" status) = false ->
  let w1 := step w (Response id {| message := JObj status |}) in
  trace w1 = trace w ++ [Msgprint (Some "Cannot Call") (assoc "message" status)
                           (Some "orange")]
  /\ handlers w1 = delete id (handlers w)
  /\ w1 = exec (frappe_msgprint (Some "Cannot Call") (assoc "message" status)
                 (Some "orange"))
             (exec (unregister id) w).
Proof.
  intros Hh Hc Hr w1.
  assert (E : w1 = exec (frappe_msgprint (Some "Cannot Call")
                           (assoc "message" status) (Some "orange"))
                     (exec (unregister id) w)).
  { unfold w1, step. rewrite Hh.
    unfold run_callback, initiate_whatsapp_call_callback.
    cbn -[insert delete lookup]. rewrite Hc, Hr. reflexivity. }
  rewrite E. repeat split.
Qed.

Lemma blocked_only_shows_message_witness :
  let w1 := step call_clicked (Response 0 {| message := JObj blocked |}) in
  trace w1 = trace call_clicked
               ++ [Msgprint (Some "Cannot Call") (JStr "Permission was declined.")
                     (Some "orange")]
  /\ handlers w1 = delete 0%nat (handlers call_clicked).
Proof.
  pose proof (blocked_only_shows_message call_clicked 0 blocked
                eq_refl eq_refl eq_refl) as H.
  split; [exact (proj1 H) | exact (proj1 (proj2 H))].
Defined.

(** ** Ending a call *)

Lemma ending_handler : handlers ending !! 6%nat = Some (OnResponse (end_cb 2)).
Proof. reflexivity. Qed.

(** The alert of a finished call, for every integer duration that a double
    holds exactly: the minutes are [floor(d/60)], the seconds [d % 60], the
    remainder with the sign of [d]. *)
Lemma end_call_alert
    (w : World) (id dialog : nat) (fields : list (string * JsVal)) (d : Z) :
  handlers w !! id = Some (OnResponse (end_cb dialog)) ->
  assoc "success" fields = JBool true ->
  assoc "duration_seconds" fields = JNum d ->
  - 2 ^ 53 < d < 2 ^ 53 ->
  trace (step w (Response id {| message := JObj fields |}))
    = trace w ++ [ShowAlert
                    (JStr ("Call ended. Duration: " +:+ dec (d / 60) +:+ "m "
                             +:+ dec (Z.rem d 60) +:+ "s")) "green";
                  ReloadDoc].
Proof.
  intros Hh Hs Hd _. unfold step. rewrite Hh.
  unfold run_callback, end_call_callback, succeeded.
  cbn -[insert delete lookup alter Z.div Z.rem dec].
  rewrite Hs. cbn -[insert delete lookup alter Z.div Z.rem dec].
  rewrite Hd. cbn -[insert delete lookup alter Z.div Z.rem dec].
  rewrite <- app_assoc. reflexivity.
Qed.

(** C6, as the script has it.  When the [end] request answers with
    [success] true and an integer duration [d] with [0 <= d < 2^53], the
    alert reads [floor(d/60)] minutes and [d mod 60] seconds. *)
Theorem end_call_reports_minutes_and_seconds
    (w : World) (id dialog : nat) (fields : list (string * JsVal)) (d : Z) :
  handlers w !! id = Some (OnResponse (end_cb dialog)) ->
  assoc "success" fields = JBool true ->
  assoc "duration_seconds" fields = JNum d ->
  0 <= d < 2 ^ 53 ->
  trace (step w (Response id {| message := JObj fields |}))
    = trace w ++ [ShowAlert
                    (JStr ("Call ended. Duration: " +:+ dec (d / 60) +:+ "m "
                             +:+ dec (d mod 60) +:+ "s")) "green";
                  ReloadDoc].
Proof.
  intros Hh Hs Hd Hr.
  rewrite (end_call_alert w id dialog fields d Hh Hs Hd) by lia.
  rewrite Z.rem_mod_nonneg by lia. reflexivity.
Qed.

Lemma end_call_reports_minutes_and_seconds_witness :
  trace (step ending
           (Response 6 {| message := JObj [("success", JBool true);
                                            ("duration_seconds", JNum 125)] |}))
  = trace ending ++ [ShowAlert (JStr "Call ended. Duration: 2m 5s") "green"; ReloadDoc].
Proof.
  apply (end_call_reports_minutes_and_seconds ending 6 2
           [("success", JBool true); ("duration_seconds", JNum 125)] 125);
    first [ reflexivity | lia ].
Defined.

(** For a negative duration the seconds are not [d mod 60]: at [-125] the
    alert reads -3 minutes and -5 seconds, where [-125 mod 60] is 55. *)
Lemma end_call_negative_duration :
  trace (step ending
           (Response 6 {| message := JObj [("success", JBool true);
                                            ("duration_seconds", JNum (-125))] |}))
  = trace ending ++ [ShowAlert (JStr "Call ended. Duration: -3m -5s") "green"; ReloadDoc]
  /\ (-125) / 60 = -3
  /\ (-125) mod 60 = 55.
Proof. vm_compute. repeat split. Qed.

(** ** The template list of the composer *)

Lemma template_options_two : template_options (JArr two_templates) = Some ("A" +:+ nl +:+ "B").
Proof. reflexivity. Qed.

(** C3, as the script has it.  A bare list and a wrapped object with a
    truthy [success] and the same list under [templates] give the same
    template list.  A response that is no list gives the empty list
    whenever it is falsy or lacks a truthy [success] or a truthy
    [templates]. *)
Theorem templates_two_shapes
    (items : list JsVal) (fields : list (string * JsVal)) (m : JsVal) :
  templates {| message := JArr items |} = JArr items
  /\ (truthy (assoc "success" fields) = true ->
      assoc "templates" fields = JArr items ->
      templates {| message := JObj fields |} = JArr items)
  /\ (is_array m = false ->
      truthy (prop m "success") && truthy (prop m "templates") = false ->
      templates {| message := m |} = JArr []).
Proof.
  split; [reflexivity |]. split.
  - intros Hs Ht. unfold templates. cbn. rewrite Hs, Ht. reflexivity.
  - intros Ha Hp. unfold templates. cbn [message]. rewrite Ha, Hp.
    destruct (truthy m); reflexivity.
Qed.

Lemma templates_two_shapes_witness :
  templates {| message := JObj [("success", JBool true);
                                ("templates", JArr two_templates)] |}
    = templates {| message := JArr two_templates |}
  /\ templates {| message := JObj [("success", JBool false);
                                   ("templates", JArr two_templates)] |} = JArr []
  /\ templates {| message := JNull |} = JArr [].
Proof.
  pose proof (templates_two_shapes two_templates
                [("success", JBool true); ("templates", JArr two_templates)]
                (JObj [("success", JBool false); ("templates", JArr two_templates)]))
    as (H1 & H2 & H3).
  pose proof (templates_two_shapes two_templates [] JNull) as (_ & _ & H4).
  split; [rewrite H1; apply H2; reflexivity |].
  split; [apply H3; reflexivity | apply H4; reflexivity].
Defined.

(** When [success] and [templates] are both truthy, [templates] is taken as
    the list whatever it is. *)
Lemma templates_wrapped_kept (m : JsVal) :
  is_array m = false ->
  truthy (prop m "success") && truthy (prop m "templates") = true ->
  templates {| message := m |} = prop m "templates".
Proof.
  intros Ha Hp. unfold templates. cbn [message]. rewrite Ha, Hp.
  destruct m; try reflexivity; cbn in Hp; discriminate.
Qed.

(** A response that is neither a list nor a wrapped list, and is not mapped
    to the empty list: [{success: true, templates: "A"}]. *)
Lemma templates_non_list_kept :
  let m := JObj [("success", JBool true); ("templates", JStr "A")] in
  is_array m = false
  /\ is_array (prop m "templates") = false
  /\ templates {| message := m |} = JStr "A"
  /\ templates {| message := m |} <> JArr [].
Proof. repeat split. discriminate. Qed.

(** With such a list the composer is never built: mapping over it throws. *)
Lemma templates_non_list_throws (w : World) (window_status : JsVal) :
  exec (create_message_dialog_callback window_status
          {| message := JObj [("success", JBool true); ("templates", JStr "A")] |}) w
  = exec (emit TypeError) w.
Proof. reflexivity. Qed.

Lemma refreshing_handler :
  handlers refreshing !! 4%nat = Some (OnResponse (refresh_templates_cb 2)).
Proof. reflexivity. Qed.






(** ** Sending outside the conversation window *)

(** With "Template" selected, [send_message] takes the template path. *)
Lemma send_message_template_path (w : World) (dialog : nat) (c : Composer) :
  composers w !! dialog = Some c ->
  message_type c = JStr "Template" ->
  appends no_send_text w (exec (send_message dialog) w).
Proof.
  intros Hc Hv.
  unfold send_message, exec, bind, composer_value, get, ret.
  cbn -[lookup]. rewrite Hc. cbn -[lookup]. rewrite Hv. cbn -[lookup].
  rewrite Hc. cbn -[lookup].
  destruct (truthy (template_name c)); cbn -[lookup];
    (split; [reflexivity |]); eexists; (split; [reflexivity |]);
    repeat constructor.
Qed.

(** C2, as the script has it.  However the form has been used, a composer
    that was built with [in_window] false offers the message type
    "Template" and nothing else and has it selected, so that pressing Send
    in it makes no [send_text] request.  (The script has no further check:
    see the run after this one.) *)
Theorem outside_window_offers_template_only
    (d : Doc) (evs : list Event) (dialog : nat) (c : Composer) :
  composers (run (opened d) evs) !! dialog = Some c ->
  truthy (prop (mc_window_status c) "in_window") = false ->
  option_lines (message_type_options c) = ["Template"]
  /\ message_type c = JStr "Template"
  /\ appends no_send_text (run (opened d) evs)
       (step (run (opened d) evs) (ClickSend dialog)).
Proof.
  intros Hc Hout.
  destruct (run_template_only d evs dialog c Hc Hout) as [Ho Hv].
  split; [rewrite Ho; reflexivity |]. split; [exact Hv |].
  unfold step. rewrite Hc. destruct (mc_visible c).
  - apply (send_message_template_path _ _ c Hc Hv).
  - reflexivity.
Qed.

Lemma outside_window_offers_template_only_witness :
  appends no_send_text composing (step composing (ClickSend 2)).
Proof.
  apply (outside_window_offers_template_only lead
           [ClickSendMessage;
            Response 0 {| message := outside_window |};
            Response 1 {| message := JArr two_templates |}]
           2
           {| mc_window_status := outside_window;
              mc_visible := true; mc_notice := true;
              message_type_options := "Template"; message_type := JStr "Template";
              template_name_options := "A" +:+ nl +:+ "B";
              template_name := JUndefined; text_message := JUndefined;
              template_name_hidden := false; text_message_hidden := true;
              sync_disabled := false; sync_spin := false |});
    reflexivity.
Defined.

(** The dialog itself does not let the user pick the text type there. *)
Lemma outside_window_text_not_selectable :
  step composing (ChooseMessageType 2 "Text Message") = composing.
Proof. reflexivity. Qed.

(** [send_message] has no check of its own: outside the window, a text send
    that is reached directly goes to the backend. *)
Lemma outside_window_text_is_sent :
  mc_window_status <$> composers forced_text !! 2%nat
    = Some (JObj [("in_window", JBool false)])
  /\ trace (exec (send_message 2) forced_text)
     = trace forced_text
         ++ [RemoteCall send_text [("lead_id", JStr "LEAD-1"); ("text", JStr "hello")]
               (Some "Sending message...")].
Proof. split; reflexivity. Qed.

(** ** The sync button *)

(** A click disables the button and sends the sync request. *)
Lemma sync_click_disables (w : World) (dialog : nat) (c : Composer) :
  composers w !! dialog = Some c ->
  mc_visible c = true -> sync_disabled c = false ->
  composers (step w (ClickSync dialog)) !! dialog = Some (mc_set_sync true true c)
  /\ handlers (step w (ClickSync dialog)) !! next_id w
     = Some (OnResponse (sync_templates_cb dialog)).
Proof.
  intros Hc Hv Hd. unfold step. rewrite Hc, Hv, Hd.
  cbn -[insert delete lookup alter]. split.
  - rewrite lookup_alter_eq, Hc. reflexivity.
  - apply lookup_insert_eq.
Qed.

(** While the button is disabled, a click does nothing. *)
Lemma sync_click_while_disabled (w : World) (dialog : nat) (c : Composer) :
  composers w !! dialog = Some c -> sync_disabled c = true ->
  step w (ClickSync dialog) = w.
Proof.
  intros Hc Hd. unfold step. rewrite Hc, Hd, andb_false_r. reflexivity.
Qed.

(** Whatever the response says, the callback enables the button again. *)
Lemma sync_response_enables (w : World) (id dialog : nat) (c : Composer) (r : Reply) :
  handlers w !! id = Some (OnResponse (sync_templates_cb dialog)) ->
  composers w !! dialog = Some c ->
  composers (step w (Response id r)) !! dialog = Some (mc_set_sync false false c).
Proof.
  intros Hh Hc. unfold step. rewrite Hh.
  unfold run_callback, sync_templates_callback.
  cbn -[insert delete lookup alter succeeded].
  destruct (succeeded r); cbn -[insert delete lookup alter];
    rewrite lookup_alter_eq, Hc; reflexivity.
Qed.

(** When no response arrives, no callback runs and the button stays as the
    click left it. *)
Lemma sync_no_response_keeps_disabled (w : World) (id dialog : nat) (c : Composer) :
  handlers w !! id = Some (OnResponse (sync_templates_cb dialog)) ->
  composers (step w (NoResponse id)) = composers w.
Proof. intros Hh. unfold step. rewrite Hh. reflexivity. Qed.

(** C7, at the run where the sync request gets no response: the request is
    over, nothing is left to run, and the button is still disabled and
    spinning, so further clicks do nothing. *)
Theorem sync_button_stuck_without_response :
  let w := run composing [ClickSync 2; NoResponse 3] in
  handlers w = ∅
  /\ sync_disabled <$> composers w !! 2%nat = Some true
  /\ sync_spin <$> composers w !! 2%nat = Some true
  /\ step w (ClickSync 2) = w.
Proof. vm_compute. repeat split. Qed.

(** ** Failures of the [end] request *)

(** The [end] callback says nothing when the request did not succeed. *)
Lemma end_call_failure_silent (w : World) (id dialog : nat) (r : Reply) :
  handlers w !! id = Some (OnResponse (end_cb dialog)) ->
  succeeded r = false ->
  trace (step w (Response id r)) = trace w.
Proof.
  intros Hh Hs. unfold step. rewrite Hh.
  unfold run_callback, end_call_callback.
  cbn -[insert delete lookup alter succeeded]. rewrite Hs. reflexivity.
Qed.

(** The sibling callback of [start_call] does report its failure. *)
Lemma start_call_failure_notifies (w : World) (id : nat) (r : Reply) :
  handlers w !! id = Some (OnResponse initiate_cb) ->
  succeeded r = false ->
  trace (step w (Response id r))
  = trace w ++ [Msgprint (Some "Call Failed") (error_or r "Could not initiate call")
                  (Some "red")].
Proof.
  intros Hh Hs. unfold step. rewrite Hh.
  unfold run_callback, start_call_callback.
  cbn -[insert delete lookup alter succeeded error_or]. rewrite Hs. reflexivity.
Qed.

(** C8, at an [end] request the backend refuses: the widget is closed, and
    the user is shown nothing, neither a message box nor an alert. *)
Theorem end_call_failure_not_reported :
  let r := {| message := JObj [("success", JBool false); ("error", JStr "Call log not found")] |} in
  let w := step ending (Response 6 r) in
  trace w = trace ending
  /\ cw_visible <$> calls ending !! 2%nat = Some true
  /\ cw_visible <$> calls w !! 2%nat = Some false
  /\ handlers w = ∅.
Proof. vm_compute. repeat split. Qed.

(** ** The elapsed timer *)

(** [end_call] stops the timer that [timerInterval] names, before it sends
    the request and so whatever the backend answers. *)
Lemma end_call_clears_timer (w : World) (id dialog : nat) (log : JsVal) (display : nat) :
  timerInterval w = Some id ->
  handlers w !! id = Some (OnInterval display) ->
  next_id w <> id ->
  handlers (exec (end_call log dialog) w) !! id = None.
Proof.
  intros Ht Hh Hn. unfold end_call, exec, bind, get, clearInterval.
  cbn -[insert delete lookup alter]. rewrite Ht.
  unfold bind, get. cbn -[insert delete lookup alter]. rewrite Hh.
  cbn -[insert delete lookup alter].
  rewrite lookup_insert_ne by exact Hn. apply lookup_delete_eq.
Qed.

(** Closing a dialog cancels nothing: every timer stays registered. *)
Lemma dismissal_keeps_timers (w : World) (dialog : nat) :
  handlers (step w (CloseDialog dialog)) = handlers w
  /\ timerInterval (step w (CloseDialog dialog)) = timerInterval w.
Proof. split; reflexivity. Qed.

(** C9, at a connected call whose dialog the user dismisses: the widget is
    closed, the timer is still registered, and its next tick runs. *)
Theorem timer_survives_dismissal :
  let w := step connected (CloseDialog 2) in
  cw_visible <$> calls w !! 2%nat = Some false
  /\ handlers w !! 5%nat = Some (OnInterval 2)
  /\ callSeconds (step w (IntervalDue 5)) = callSeconds w + 1
  /\ cw_timer_display <$> calls (step w (IntervalDue 5)) !! 2%nat = Some "00:01".
Proof. vm_compute. repeat split. Qed.

(** The timer also outlives a call that is ended before it connects: the
    pending timeout starts it after the widget has been closed. *)
Lemma timer_started_after_end :
  let w := run connecting
             [TimeoutDue 3; ClickEndCall 2;
              Response 5 {| message := JObj [("success", JBool true);
                                             ("duration_seconds", JNum 1)] |};
              TimeoutDue 4] in
  cw_visible <$> calls w !! 2%nat = Some false
  /\ handlers w !! 6%nat = Some (OnInterval 2)
  /\ callSeconds (step w (IntervalDue 6)) = 1.
Proof. vm_compute. repeat split. Qed.

(** ** The elapsed time on the call widget *)





(** ** [format_duration] *)

(** X2.  For a duration below 100 minutes [format_duration] gives five
    characters, minutes and seconds around a colon, and reading the two
    numbers back gives the minutes and the seconds of the duration. *)
Theorem format_duration_reads_back (n : Z) :
  0 <= n < 6000 ->
  let s := format_duration (JNum n) in
  String.length s = 5%nat
  /\ String.get 2 s = Some ":"%char
  /\ to_number (JStr (substring 0 2 s)) = JNum (n / 60)
  /\ to_number (JStr (substring 3 2 s)) = JNum (n mod 60).
Proof.
  intros Hn.
  assert (Hall : forallb
            (fun m =>
               let k := Z.of_nat m in
               let s := format_duration (JNum k) in
               (String.length s =? 5)%nat
               && match String.get 2 s with
                  | Some c => Ascii.eqb c ":"
                  | None => false
                  end
               && match to_number (JStr (substring 0 2 s)) with
                  | JNum a => a =? k / 60
                  | _ => false
                  end
               && match to_number (JStr (substring 3 2 s)) with
                  | JNum a => a =? k mod 60
                  | _ => false
                  end)
            (seq 0 (Z.to_nat 6000)) = true) by (vm_compute; reflexivity).
  rewrite forallb_forall in Hall.
  specialize (Hall (Z.to_nat n)).
  rewrite Z2Nat.id in Hall by lia.
  assert (Hin : In (Z.to_nat n) (seq 0 (Z.to_nat 6000))) by (apply in_seq; lia).
  specialize (Hall Hin). cbv zeta in Hall |- *.
  apply andb_prop in Hall as [Hall H4].
  apply andb_prop in Hall as [Hall H3].
  apply andb_prop in Hall as [H1 H2].
  split; [apply Nat.eqb_eq, H1 |]. split.
  - destruct (String.get 2 (format_duration (JNum n))); [| discriminate].
    apply Ascii.eqb_eq in H2. subst. reflexivity.
  - split.
    + destruct (to_number (JStr (substring 0 2 (format_duration (JNum n)))));
        try discriminate. apply Z.eqb_eq in H3. subst. reflexivity.
    + destruct (to_number (JStr (substring 3 2 (format_duration (JNum n)))));
        try discriminate. apply Z.eqb_eq in H4. subst. reflexivity.
Qed.

Lemma format_duration_reads_back_witness :
  String.length (format_duration (JNum 125)) = 5%nat
  /\ String.get 2 (format_duration (JNum 125)) = Some ":"%char
  /\ to_number (JStr (substring 0 2 (format_duration (JNum 125)))) = JNum 2
  /\ to_number (JStr (substring 3 2 (format_duration (JNum 125)))) = JNum 5.
Proof. apply (format_duration_reads_back 125). lia. Defined.

(** ** What [refresh] puts on the form *)

(** X4.  [refresh] adds the two WhatsApp buttons exactly when the lead is
    saved and has a WhatsApp or mobile number, which is when [step] lets
    them be clicked; for a lead that is not saved it does nothing at all.
    The button it removes beforehand is labelled "Send WhatsApp", never the
    "Send Message" it adds. *)
Theorem refresh_adds_buttons (is_new : bool) (d : Doc) :
  (In (AddButton "WhatsApp Call" "WhatsApp") (fst (refresh is_new d))
   <-> is_new = false /\ add_whatsapp_buttons d = true)
  /\ (In (AddButton "Send Message" "WhatsApp") (fst (refresh is_new d))
      <-> is_new = false /\ add_whatsapp_buttons d = true)
  /\ (is_new = true -> refresh is_new d = ([], []))
  /\ ~ In (RemoveButton "Send Message") (fst (refresh is_new d)).
Proof.
  unfold refresh, add_whatsapp_buttons_calls, add_whatsapp_buttons.
  destruct is_new; [| destruct (truthy (js_or (whatsapp_number d) (mobile_no d)))];
    cbn; intuition congruence.
Qed.

Lemma refresh_adds_buttons_witness :
  In (AddButton "WhatsApp Call" "WhatsApp") (fst (refresh false lead)).
Proof.
  apply (proj1 (refresh_adds_buttons false lead)). split; reflexivity.
Defined.

(** ** Realtime events *)

Lemma run_listeners_other_lead (ls : list Listener) (data : JsVal) (w : World) :
  is_string (prop data "lead") (doc_name (doc w)) = false ->
  run_listeners ls data w = (tt, w).
Proof.
  intros H. induction ls as [| l ls IH]; [reflexivity |].
  cbn [run_listeners]. unfold bind at 1.
  assert (E : realtime_callback l data w = (tt, w)).
  { unfold realtime_callback, bind, get. cbn [fst snd].
    destruct l; rewrite ?H; reflexivity. }
  rewrite E. exact IH.
Qed.

Lemma run_listeners_message_status (ls : list Listener) (data : JsVal) (w : World) :
  Forall (fun l => l = whatsapp_message_status) ls ->
  run_listeners ls data w = (tt, w).
Proof.
  induction 1 as [| l ls Hl _ IH]; [reflexivity |].
  subst l. cbn [run_listeners]. unfold bind at 1. exact IH.
Qed.

(** X5.  A realtime event whose data is an object changes nothing on the
    form unless its [lead] is strictly equal to the name of the open lead;
    a [whatsapp_message_status] event changes nothing even then.  This
    holds however many listeners have been registered. *)
Theorem realtime_ignores_other_leads
    (ls : list Listener) (event : string) (data : JsVal) (w : World) :
  nullish data = false ->
  (is_string (prop data "lead") (doc_name (doc w)) = false ->
   exec (realtime ls event data) w = w)
  /\ exec (realtime ls "whatsapp_message_status" data) w = w.
Proof.
  intros Hd.
  assert (Hm : exists v, member data "lead" = Some v).
  { destruct data; try discriminate; eexists; reflexivity. }
  destruct Hm as [v Hm]. split.
  - intros H. unfold realtime, exec. rewrite Hm.
    destruct (filter _ ls); [reflexivity |].
    rewrite run_listeners_other_lead by exact H. reflexivity.
  - unfold realtime, exec. rewrite Hm.
    assert (F : Forall (fun l => l = whatsapp_message_status)
                  (filter (fun l => event_name l = "whatsapp_message_status") ls)).
    { apply Forall_forall. intros l Hl. apply list_elem_of_filter in Hl as [Hl _].
      destruct l; try discriminate. reflexivity. }
    destruct (filter _ ls); [reflexivity |].
    rewrite run_listeners_message_status by exact F. reflexivity.
Qed.

Lemma realtime_ignores_other_leads_witness :
  exec (realtime setup_realtime_listeners "whatsapp_new_message"
          (JObj [("lead", JStr "LEAD-2")])) composing = composing.
Proof.
  apply (realtime_ignores_other_leads setup_realtime_listeners
           "whatsapp_new_message" (JObj [("lead", JStr "LEAD-2")]) composing);
    reflexivity.
Defined.

Lemma new_message_listeners (d : Doc) (n : nat) :
  filter (fun l => event_name l = "whatsapp_new_message") (refreshed false d n)
  = replicate n whatsapp_new_message.
Proof.
  induction n as [| n IH]; [reflexivity |].
  cbn [refreshed]. rewrite filter_app, IH.
  change (filter _ (snd (refresh false d))) with [whatsapp_new_message].
  clear IH. induction n as [| n IH]; [reflexivity |].
  cbn [replicate app]. rewrite IH. reflexivity.
Qed.

Lemma run_new_message_listeners (n : nat) (data : JsVal) (w : World) :
  is_string (prop data "lead") (doc_name (doc w)) = true ->
  doc (snd (run_listeners (replicate n whatsapp_new_message) data w)) = doc w
  /\ trace (snd (run_listeners (replicate n whatsapp_new_message) data w))
     = trace w ++ concat (replicate n new_message_notice).
Proof.
  revert w. induction n as [| n IH]; intros w H.
  - cbn. rewrite app_nil_r. split; reflexivity.
  - cbn [replicate run_listeners]. unfold bind.
    set (w1 := snd (realtime_callback whatsapp_new_message data w)).
    assert (E : doc w1 = doc w /\ trace w1 = trace w ++ new_message_notice).
    { unfold w1, realtime_callback, bind, get. cbn [fst snd]. rewrite H.
      cbn. rewrite <- app_assoc. split; reflexivity. }
    destruct E as [E1 E2].
    destruct (IH w1) as [F1 F2]; [rewrite E1; exact H |].
    rewrite F1, F2, E1, E2. cbn [replicate concat].
    rewrite <- !app_assoc. split; reflexivity.
Qed.

(** X6.  The listeners are added again at every [refresh] and never taken
    away: after [n] refreshes of a saved lead, one [whatsapp_new_message]
    event for this lead shows the alert and reloads the document [n]
    times. *)
Theorem listeners_pile_up (d : Doc) (n : nat) (data : JsVal) (w : World) :
  doc w = d ->
  is_string (prop data "lead") (doc_name d) = true ->
  trace (exec (realtime (refreshed false d n) "whatsapp_new_message" data) w)
  = trace w ++ concat (replicate n new_message_notice).
Proof.
  intros Hd H. subst d. unfold realtime, exec.
  rewrite new_message_listeners.
  assert (Hm : exists v, member data "lead" = Some v).
  { destruct data; try discriminate; eexists; reflexivity. }
  destruct Hm as [v Hm]. rewrite Hm.
  destruct n as [| n]; [cbn; rewrite app_nil_r; reflexivity |].
  exact (proj2 (run_new_message_listeners (S n) data w H)).
Qed.

Lemma listeners_pile_up_witness :
  trace (exec (realtime (refreshed false lead 3) "whatsapp_new_message"
                 (JObj [("lead", JStr "LEAD-1")])) (opened lead))
  = concat (replicate 3 new_message_notice).
Proof.
  apply (listeners_pile_up lead 3 (JObj [("lead", JStr "LEAD-1")]) (opened lead));
    reflexivity.
Defined.

(** ** What the user is told *)

(** X7.  When a request for call permission, a call set-up or a send comes
    back without success, the user gets exactly one red message box: it
    carries the [error] of the response, or the fallback text of that
    action when the response has no message at all. *)
Theorem failures_are_shown
    (w : World) (id : nat) (cb : Callback) (r : Reply) (title fallback : string) :
  handlers w !! id = Some (OnResponse cb) ->
  failure_notice cb = Some (title, fallback) ->
  succeeded r = false ->
  trace (step w (Response id r))
  = trace w ++ [Msgprint (Some title)
                  (if truthy (message r) then prop (message r) "error"
                   else JStr fallback)
                  (Some "red")].
Proof.
  intros Hh Hn Hs. unfold step. rewrite Hh.
  destruct cb; try discriminate; injection Hn as <- <-;
    unfold run_callback, request_call_permission_callback, start_call_callback,
      send_message_callback, handle_send_response;
    cbn -[insert delete lookup alter succeeded error_or]; rewrite Hs; reflexivity.
Qed.

Lemma failures_are_shown_witness :
  trace (step sending (Response 3 {| message := JUndefined |}))
  = trace sending ++ [Msgprint (Some "Failed") (JStr "Could not send message")
                        (Some "red")].
Proof.
  apply (failures_are_shown sending 3 (send_cb 2) {| message := JUndefined |}
           "Failed" "Could not send message"); reflexivity.
Defined.

(** X8.  When a request for call permission or a send succeeds, the user
    gets one green alert and the document is reloaded; nothing else is put
    on the trace. *)
Theorem successes_are_shown
    (w : World) (id : nat) (cb : Callback) (r : Reply) (text : string) :
  handlers w !! id = Some (OnResponse cb) ->
  success_notice cb = Some text ->
  succeeded r = true ->
  trace (step w (Response id r))
  = trace w ++ [ShowAlert (JStr text) "green"; ReloadDoc].
Proof.
  intros Hh Hn Hs. unfold step. rewrite Hh.
  destruct cb; try discriminate; injection Hn as <-;
    unfold run_callback, request_call_permission_callback,
      send_message_callback, handle_send_response;
    cbn -[insert delete lookup alter succeeded]; rewrite Hs;
    cbn -[insert delete lookup alter succeeded];
    rewrite <- app_assoc; reflexivity.
Qed.

Lemma successes_are_shown_witness :
  trace (step sending (Response 3 {| message := JObj [("success", JBool true)] |}))
  = trace sending ++ [ShowAlert (JStr "Message sent successfully") "green"; ReloadDoc].
Proof.
  apply (successes_are_shown sending 3 (send_cb 2)
           {| message := JObj [("success", JBool true)] |}); reflexivity.
Defined.

(** X9.  Whatever a send comes back with, success or failure or nothing,
    its callback closes the composer. *)
Theorem send_response_closes_composer
    (w : World) (id dialog : nat) (c : Composer) (r : Reply) :
  handlers w !! id = Some (OnResponse (send_cb dialog)) ->
  composers w !! dialog = Some c ->
  composers (step w (Response id r)) !! dialog = Some (mc_show false c).
Proof.
  intros Hh Hc. unfold step. rewrite Hh.
  unfold run_callback, send_message_callback, handle_send_response.
  cbn -[insert delete lookup alter succeeded error_or].
  destruct (succeeded r); cbn -[insert delete lookup alter error_or];
    rewrite lookup_alter_eq, Hc; reflexivity.
Qed.

Lemma send_response_closes_composer_witness :
  mc_visible <$> composers (step sending (Response 3 {| message := JNull |})) !! 2%nat
  = Some false.
Proof.
  rewrite (send_response_closes_composer sending 3 2
             {| mc_window_status := outside_window;
                mc_visible := true; mc_notice := true;
                message_type_options := "Template"; message_type := JStr "Template";
                template_name_options := "A" +:+ nl +:+ "B";
                template_name := JStr "A"; text_message := JUndefined;
                template_name_hidden := false; text_message_hidden := true;
                sync_disabled := false; sync_spin := false |}
             {| message := JNull |} eq_refl eq_refl).
  reflexivity.
Defined.

(** X10.  When the permission check comes back with no message, the call
    request ends there: nothing is shown to the user and nothing is sent. *)
Theorem empty_permission_response_is_dropped (w : World) (id : nat) (r : Reply) :
  handlers w !! id = Some (OnResponse check_permission_cb) ->
  truthy (message r) = false ->
  step w (Response id r) = exec (unregister id) w
  /\ trace (step w (Response id r)) = trace w
  /\ handlers (step w (Response id r)) = delete id (handlers w).
Proof.
  intros Hh Hm. unfold step. rewrite Hh.
  unfold run_callback, initiate_whatsapp_call_callback.
  cbn -[insert delete lookup]. rewrite Hm. repeat split.
Qed.

Lemma empty_permission_response_is_dropped_witness :
  trace (step call_clicked (Response 0 {| message := JUndefined |}))
  = trace call_clicked.
Proof.
  apply (empty_permission_response_is_dropped call_clicked 0
           {| message := JUndefined |}); reflexivity.
Defined.

(** ** Pressing Send *)

(** X11.  A click on Send has exactly one outcome, and the composer stays
    as it is.  When the input of the chosen message type is empty, it is
    the local message box that asks for it, and no request is made.
    Otherwise it is one request, [send_template] for the type "Template"
    and [send_text] for anything else, with the lead of the form and the
    content of that input. *)
Theorem send_click_one_outcome (w : World) (dialog : nat) (c : Composer) :
  composers w !! dialog = Some c ->
  mc_visible c = true ->
  let w' := step w (ClickSend dialog) in
  let template := is_string (message_type c) "Template" in
  composers w' = composers w
  /\ (truthy (chosen_input c) = false ->
      handlers w' = handlers w
      /\ trace w'
         = trace w ++ [Msgprint None
                         (JStr (if template then "Please select a template"
                                else "Please enter a message")) None])
  /\ (truthy (chosen_input c) = true ->
      handlers w' = <[next_id w := OnResponse (send_cb dialog)]> (handlers w)
      /\ trace w'
         = trace w ++ [RemoteCall (if template then send_template else send_text)
                         [("lead_id", JStr (doc_name (doc w)));
                          (if template then "template_name" else "text",
                           chosen_input c)]
                         (Some "Sending message...")]).
Proof.
  intros Hc Hv. unfold step. rewrite Hc, Hv. unfold chosen_input.
  unfold send_message, exec, bind, composer_value, get, ret.
  cbn -[insert lookup]. rewrite Hc. cbn -[insert lookup].
  destruct (is_string (message_type c) "Template"); cbn -[insert lookup];
    rewrite Hc; cbn -[insert lookup];
    (split; [destruct (truthy _); reflexivity |]);
    split; intros Ht; rewrite Ht; cbn -[insert lookup]; split; reflexivity.
Qed.

Lemma send_click_one_outcome_witness :
  trace (step composing (ClickSend 2))
  = trace composing ++ [Msgprint None (JStr "Please select a template") None].
Proof.
  apply (send_click_one_outcome composing 2
           {| mc_window_status := outside_window;
              mc_visible := true; mc_notice := true;
              message_type_options := "Template"; message_type := JStr "Template";
              template_name_options := "A" +:+ nl +:+ "B";
              template_name := JUndefined; text_message := JUndefined;
              template_name_hidden := false; text_message_hidden := true;
              sync_disabled := false; sync_spin := false |});
    reflexivity.
Defined.

(** ** Opening the composer *)

(** X12.  When the window check comes back with no message, the composer
    is built as for a lead outside the conversation window: it shows the
    template-only notice and offers the message type "Template" alone. *)
Theorem missing_window_status_is_outside
    (w : World) (id : nat) (r r2 : Reply) (opts : string) :
  handlers w !! id = Some (OnResponse check_conversation_window_cb) ->
  truthy (message r) = false ->
  template_options (templates r2) = Some opts ->
  composers (run w [Response id r; Response (next_id w) r2]) !! S (next_id w)
  = Some {| mc_window_status := JObj [];
            mc_visible := true; mc_notice := true;
            message_type_options := "Template"; message_type := JStr "Template";
            template_name_options := opts;
            template_name := JUndefined; text_message := JUndefined;
            template_name_hidden := false; text_message_hidden := true;
            sync_disabled := false; sync_spin := false |}.
Proof.
  intros Hh Hm Ht. cbn [run foldl].
  set (w1 := step w (Response id r)).
  assert (E : handlers w1 !! next_id w = Some (OnResponse (get_templates_cb (JObj [])))
              /\ next_id w1 = S (next_id w)).
  { unfold w1, step. rewrite Hh.
    unfold run_callback, show_message_composer_callback, js_or. rewrite Hm.
    cbn -[insert delete lookup]. split; [apply lookup_insert_eq | reflexivity]. }
  destruct E as [E1 E2].
  unfold step. rewrite E1.
  unfold run_callback, create_message_dialog_callback. rewrite Ht.
  cbn -[insert delete lookup alter w1]. rewrite E2.
  rewrite lookup_alter_eq, lookup_insert_eq. reflexivity.
Qed.

Lemma missing_window_status_is_outside_witness :
  mc_notice
    <$> composers (run (step (opened lead) ClickSendMessage)
                     [Response 0 {| message := JUndefined |};
                      Response 1 {| message := JArr two_templates |}]) !! 2%nat
  = Some true.
Proof.
  exact (f_equal (fmap mc_notice)
           (missing_window_status_is_outside (step (opened lead) ClickSendMessage) 0
              {| message := JUndefined |} {| message := JArr two_templates |}
              ("A" +:+ nl +:+ "B") eq_refl eq_refl eq_refl)).
Defined.

(** X13.  The options of the template field can be built exactly when the
    template list is a list none of whose entries is [undefined] or
    [null]; otherwise building them throws, and the composer is not
    opened. *)
Theorem template_options_defined (ts : JsVal) (w : World) (window_status : JsVal)
    (r : Reply) :
  (is_Some (template_options ts)
   <-> exists items, ts = JArr items /\ forallb (fun t => negb (nullish t)) items = true)
  /\ (template_options (templates r) = None ->
      exec (create_message_dialog_callback window_status r) w = exec (emit TypeError) w).
Proof.
  split.
  - destruct ts; cbn [template_options];
      try (split; [intros [? H]; discriminate | intros (? & H & _); discriminate]).
    rewrite fmap_is_Some, mapM_is_Some. split.
    + intros H. exists items. split; [reflexivity |].
      apply forallb_forall. intros t Ht.
      rewrite Forall_forall in H. apply list_elem_of_In in Ht.
      specialize (H t Ht). destruct t; try reflexivity;
        cbn in H; destruct H as [? H]; discriminate.
    + intros (items' & [= <-] & H). rewrite forallb_forall in H.
      apply Forall_forall. intros t Ht. apply list_elem_of_In in Ht.
      specialize (H t Ht). destruct t; try discriminate; cbn; eexists; reflexivity.
  - intros H. unfold create_message_dialog_callback. rewrite H. reflexivity.
Qed.

Lemma template_options_defined_witness :
  is_Some (template_options (JArr two_templates))
  /\ exec (create_message_dialog_callback outside_window
             {| message := JArr [JNull] |}) (opened lead)
     = exec (emit TypeError) (opened lead).
Proof.
  split.
  - apply (proj1 (template_options_defined (JArr two_templates) (opened lead)
                    outside_window {| message := JNull |})).
    exists two_templates. split; reflexivity.
  - apply (proj2 (template_options_defined JNull (opened lead) outside_window
                    {| message := JArr [JNull] |})).
    reflexivity.
Defined.

(** ** Requests are for the lead of the form *)

#[local] Instance stays_on_lead_preorder (d : Doc) : PreOrder (stays_on_lead d).
Proof.
  split.
  - intros w _. reflexivity.
  - intros a b c Hab Hbc Ha. specialize (Hab Ha).
    transitivity b; [exact Hab |]. apply Hbc.
    destruct Hab as [D _]. rewrite D. exact Ha.
Qed.

Lemma stays_on_lead_lift {A : Type} (d : Doc) (m : Script A) :
  respects (appends (for_lead d)) m -> respects (stays_on_lead d) m.
Proof. intros H w _. apply H. Qed.

Lemma stays_on_lead_emit (d : Doc) (e : Effect) :
  for_lead d e -> respects (stays_on_lead d) (emit e).
Proof. intros H. apply stays_on_lead_lift, appends_emit, H. Qed.

Ltac lead_request Hd :=
  (split; [reflexivity |]); eexists; (split; [reflexivity |]);
  (constructor; [| constructor ]);
  first [ exact I | right; cbn; rewrite Hd; reflexivity ].

Lemma stays_on_lead_start_call (d : Doc) : respects (stays_on_lead d) start_call.
Proof. intros w Hd. lead_request Hd. Qed.

Lemma stays_on_lead_request_call_permission (d : Doc) :
  respects (stays_on_lead d) request_call_permission.
Proof. intros w Hd. lead_request Hd. Qed.

Lemma stays_on_lead_initiate_whatsapp_call (d : Doc) :
  respects (stays_on_lead d) initiate_whatsapp_call.
Proof. intros w Hd. lead_request Hd. Qed.

Lemma stays_on_lead_show_message_composer (d : Doc) :
  respects (stays_on_lead d) show_message_composer.
Proof. intros w Hd. lead_request Hd. Qed.

Lemma stays_on_lead_send_message (d : Doc) (dialog : nat) :
  respects (stays_on_lead d) (send_message dialog).
Proof.
  intros w Hd. unfold send_message, bind, composer_value, get, ret.
  cbn -[lookup].
  repeat match goal with
    | |- context [if ?b then _ else _] => destruct b
    end; lead_request Hd.
Qed.

#[local] Hint Resolve stays_on_lead_lift stays_on_lead_start_call
  stays_on_lead_request_call_permission stays_on_lead_initiate_whatsapp_call
  stays_on_lead_show_message_composer stays_on_lead_send_message : respects.

Ltac stays_on_lead_all :=
  respects_all;
  try (apply stays_on_lead_emit; first [ exact I | left; reflexivity ]).

Lemma step_stays_on_lead (d : Doc) (w : World) (ev : Event) :
  stays_on_lead d w (step w ev).
Proof.
  destruct ev; unfold step;
    repeat match goal with
      | |- context [match ?x with _ => _ end] => destruct x
      end;
    try reflexivity;
    apply (respects_exec (stays_on_lead d)); stays_on_lead_all.
Qed.

(** X14.  Whatever state the form is in and whatever happens next, every
    request sent in that turn that names a lead names [frm.doc.name] as it
    is then: a lead id is never taken from a response, from the data of an
    event or from what the user typed. *)
Theorem requests_name_the_current_lead (w : World) (ev : Event) :
  exists new,
    trace (step w ev) = trace w ++ new
    /\ Forall (for_lead (doc w)) new.
Proof.
  destruct (step_stays_on_lead (doc w) w ev eq_refl) as (_ & new & E & F).
  exists new. split; assumption.
Qed.

(** ** Events that say nothing *)

(** X15.  The timers, typing and choosing in a dialog, closing a dialog, a
    request that gets no response and a declined confirmation never send a
    request and never show anything to the user. *)
Theorem passive_events_are_silent (w : World) (ev : Event) :
  passive ev = true ->
  trace (step w ev) = trace w.
Proof.
  intros Hp.
  enough (H : appends (fun _ => False) w (step w ev)).
  { destruct H as (_ & new & E & F). destruct new as [| e new].
    - rewrite E. apply app_nil_r.
    - inversion F as [| ? ? []]. }
  destruct ev; try discriminate;
    try match goal with
      | yes : bool |- _ => destruct yes; [discriminate |]
      end;
    unfold step;
    repeat match goal with
      | |- context [match ?x with _ => _ end] => destruct x
      end;
    try reflexivity;
    apply appends_exec; respects_all.
Qed.

Lemma passive_events_are_silent_witness :
  trace (step connected (CloseDialog 2)) = trace connected.
Proof. apply (passive_events_are_silent connected (CloseDialog 2)). reflexivity. Defined.

(** ** The composer shows the input it sends *)

#[local] Instance keeps_chosen_inputs_preorder : PreOrder keeps_chosen_inputs.
Proof.
  split.
  - intros w H. exact H.
  - intros a b c Hab Hbc H. apply Hbc, Hab, H.
Qed.

Lemma chosen_inputs_untouched {A : Type} (m : Script A) :
  (forall w, composers (snd (m w)) = composers w) ->
  respects keeps_chosen_inputs m.
Proof. intros H w Hw d c. rewrite H. apply Hw. Qed.

Lemma chosen_inputs_emit e : respects keeps_chosen_inputs (emit e).
Proof. apply chosen_inputs_untouched. reflexivity. Qed.

Lemma chosen_inputs_register h : respects keeps_chosen_inputs (register h).
Proof. apply chosen_inputs_untouched. reflexivity. Qed.

Lemma chosen_inputs_unregister id : respects keeps_chosen_inputs (unregister id).
Proof. apply chosen_inputs_untouched. reflexivity. Qed.

Lemma chosen_inputs_set_timerInterval t :
  respects keeps_chosen_inputs (set_timerInterval t).
Proof. apply chosen_inputs_untouched. reflexivity. Qed.

Lemma chosen_inputs_set_callSeconds n :
  respects keeps_chosen_inputs (set_callSeconds n).
Proof. apply chosen_inputs_untouched. reflexivity. Qed.

Lemma chosen_inputs_new_call_dialog c :
  respects keeps_chosen_inputs (new_call_dialog c).
Proof. apply chosen_inputs_untouched. reflexivity. Qed.

Lemma chosen_inputs_update_call d f :
  respects keeps_chosen_inputs (update_call d f).
Proof. apply chosen_inputs_untouched. reflexivity. Qed.




#[local] Hint Resolve chosen_inputs_emit chosen_inputs_register
  chosen_inputs_unregister chosen_inputs_set_timerInterval
  chosen_inputs_set_callSeconds chosen_inputs_new_call_dialog
  chosen_inputs_update_call : respects.









(** ** Handles are not handed out twice *)

#[local] Instance keeps_handles_fresh_preorder : PreOrder keeps_handles_fresh.
Proof.
  split.
  - intros w H. exact H.
  - intros a b c Hab Hbc H. apply Hbc, Hab, H.
Qed.

Ltac fresh_cases H1 H2 H3 :=
  repeat split; intros i x; cbn -[insert delete alter lookup];
  rewrite ?lookup_insert_Some, ?lookup_delete_Some, ?lookup_alter_Some;
  intros Hx;
  repeat match type of Hx with
    | _ \/ _ => destruct Hx as [Hx | Hx]
    | _ /\ _ => let Hy := fresh in destruct Hx as [Hy Hx]
    | exists _, _ => let y := fresh in destruct Hx as [y Hx]
    end;
  subst;
  first [ lia
        | apply H1 in Hx; lia | apply H2 in Hx; lia | apply H3 in Hx; lia
        | match goal with
          | Hy : _ !! _ = Some _ |- _ =>
              first [ apply H1 in Hy | apply H2 in Hy | apply H3 in Hy ]; lia
          end ].

Lemma handles_fresh_emit e : respects keeps_handles_fresh (emit e).
Proof. intros w (H1 & H2 & H3). fresh_cases H1 H2 H3. Qed.

Lemma handles_fresh_register h : respects keeps_handles_fresh (register h).
Proof. intros w (H1 & H2 & H3). fresh_cases H1 H2 H3. Qed.

Lemma handles_fresh_unregister id : respects keeps_handles_fresh (unregister id).
Proof. intros w (H1 & H2 & H3). fresh_cases H1 H2 H3. Qed.

Lemma handles_fresh_set_timerInterval t :
  respects keeps_handles_fresh (set_timerInterval t).
Proof. intros w (H1 & H2 & H3). fresh_cases H1 H2 H3. Qed.

Lemma handles_fresh_set_callSeconds n :
  respects keeps_handles_fresh (set_callSeconds n).
Proof. intros w (H1 & H2 & H3). fresh_cases H1 H2 H3. Qed.

Lemma handles_fresh_new_call_dialog c :
  respects keeps_handles_fresh (new_call_dialog c).
Proof. intros w (H1 & H2 & H3). fresh_cases H1 H2 H3. Qed.

Lemma handles_fresh_new_composer c :
  respects keeps_handles_fresh (new_composer c).
Proof. intros w (H1 & H2 & H3). fresh_cases H1 H2 H3. Qed.

Lemma handles_fresh_update_call d f :
  respects keeps_handles_fresh (update_call d f).
Proof. intros w (H1 & H2 & H3). fresh_cases H1 H2 H3. Qed.

Lemma handles_fresh_update_composer d f :
  respects keeps_handles_fresh (update_composer d f).
Proof. intros w (H1 & H2 & H3). fresh_cases H1 H2 H3. Qed.

#[local] Hint Resolve handles_fresh_emit handles_fresh_register
  handles_fresh_unregister handles_fresh_set_timerInterval
  handles_fresh_set_callSeconds handles_fresh_new_call_dialog
  handles_fresh_new_composer handles_fresh_update_call
  handles_fresh_update_composer : respects.

Lemma step_keeps_handles_fresh (w : World) (ev : Event) :
  keeps_handles_fresh w (step w ev).
Proof.
  destruct ev; unfold step;
    repeat match goal with
      | |- context [match ?x with _ => _ end] => destruct x
      end;
    try reflexivity;
    apply (respects_exec keeps_handles_fresh); respects_all.
Qed.

Lemma run_handles_fresh (d : Doc) (evs : list Event) :
  handles_fresh (run (opened d) evs).
Proof.
  apply (respects_foldl keeps_handles_fresh step evs (opened d)).
  - apply Forall_forall. intros ev _ w'. apply step_keeps_handles_fresh.
  - repeat split; intros i x Hx; cbn in Hx; rewrite lookup_empty in Hx;
      discriminate.
Qed.

(** ** Ending a call, once more *)

(** X17.  However the form is used, pressing End Call cancels nothing but
    the timer that [timerInterval] names: every other timer, pending
    timeout and request in flight stays registered.  So the timer of an
    earlier call, which the shared [timerInterval] no longer names, cannot
    be stopped any more. *)
Theorem end_call_cancels_one_timer
    (d : Doc) (evs : list Event) (dialog : nat) (c : CallWidget)
    (id : nat) (h : Handler) :
  calls (run (opened d) evs) !! dialog = Some c ->
  cw_visible c = true ->
  handlers (run (opened d) evs) !! id = Some h ->
  timerInterval (run (opened d) evs) <> Some id ->
  handlers (step (run (opened d) evs) (ClickEndCall dialog)) !! id = Some h.
Proof.
  intros Hc Hv Hh Ht.
  destruct (run_handles_fresh d evs) as (F1 & _ & _).
  set (w := run (opened d) evs) in *.
  assert (Hlt : (id < next_id w)%nat) by (apply (F1 id h Hh)).
  unfold step. rewrite Hc, Hv.
  unfold call_widget_primary_action, end_call, exec, bind, get, call_value, ret,
    clearInterval.
  cbn -[insert delete lookup alter w].
  destruct (timerInterval w) as [t |] eqn:Et; cbn -[insert delete lookup alter w].
  - unfold bind, get. cbn -[insert delete lookup alter w].
    destruct (handlers w !! t) as [ht |] eqn:Eh; cbn -[insert delete lookup alter w];
      [destruct (is_timer ht) |]; cbn -[insert delete lookup alter w];
      rewrite lookup_insert_ne by lia; try exact Hh.
    rewrite lookup_delete_ne by congruence. exact Hh.
  - rewrite lookup_insert_ne by lia. exact Hh.
Qed.

Lemma end_call_cancels_one_timer_witness :
  handlers (step (run (opened lead) two_calls) (ClickEndCall 8)) !! 5%nat
  = Some (OnInterval 2).
Proof.
  apply (end_call_cancels_one_timer lead two_calls 8
           {| cw_visible := true; cw_heading := "Ann"; cw_phone := "15550100";
              cw_badge := "Connected"; cw_badge_class := ["badge"; "badge-success"];
              cw_timer_shown := true; cw_timer_display := "00:00";
              call_notes := JUndefined; call_data := JObj call_started |}
           5 (OnInterval 2));
    vm_compute; first [ reflexivity | discriminate ].
Defined.

(** A click on End Call sends the [end] request of the dialog and leaves
    the dialog as it is. *)
Lemma end_call_click (w : World) (dialog : nat) (c : CallWidget) :
  calls w !! dialog = Some c ->
  cw_visible c = true ->
  trace (step w (ClickEndCall dialog)) = trace w ++ [end_request c]
  /\ calls (step w (ClickEndCall dialog)) = calls w.
Proof.
  intros Hc Hv. unfold step. rewrite Hc, Hv.
  unfold call_widget_primary_action, end_call, exec, bind, get, call_value, ret,
    clearInterval.
  cbn -[insert delete lookup alter]. rewrite Hc.
  destruct (timerInterval w) as [t |]; unfold bind, get;
    cbn -[insert delete lookup alter];
    [destruct (handlers w !! t) as [ht |]; cbn -[insert delete lookup alter];
     [destruct (is_timer ht) |] |];
    cbn -[insert delete lookup alter]; rewrite ?Hc; split; reflexivity.
Qed.

(** X18.  The dialog stays open until the [end] request has come back, and
    nothing guards its button meanwhile: a second click on End Call sends
    the same [end] request a second time. *)
Theorem end_call_twice_sends_twice (w : World) (dialog : nat) (c : CallWidget) :
  calls w !! dialog = Some c ->
  cw_visible c = true ->
  trace (run w [ClickEndCall dialog; ClickEndCall dialog])
  = trace w ++ [end_request c; end_request c].
Proof.
  intros Hc Hv. cbn [run foldl].
  destruct (end_call_click w dialog c Hc Hv) as [E1 E2].
  destruct (end_call_click (step w (ClickEndCall dialog)) dialog c) as [E3 _];
    [rewrite E2; exact Hc | exact Hv |].
  rewrite E3, E1, <- app_assoc. reflexivity.
Qed.

Lemma end_call_twice_sends_twice_witness :
  trace (run connected [ClickEndCall 2; ClickEndCall 2])
  = trace connected
      ++ [RemoteCall "walue_whatsapp_client.api.calls.end"
            [("call_log_id", JStr "C1"); ("notes", JUndefined)] None;
          RemoteCall "walue_whatsapp_client.api.calls.end"
            [("call_log_id", JStr "C1"); ("notes", JUndefined)] None].
Proof.
  apply (end_call_twice_sends_twice connected 2
           {| cw_visible := true; cw_heading := "Ann"; cw_phone := "15550100";
              cw_badge := "Connected"; cw_badge_class := ["badge"; "badge-success"];
              cw_timer_shown := true; cw_timer_display := "00:00";
              call_notes := JUndefined; call_data := JObj call_started |});
    reflexivity.
Defined.

(** X19.  The [end] request carries the [call_log_id] the backend gave when
    the call was set up, and the notes as they stand in the dialog when End
    Call is pressed. *)
Theorem end_call_sends_log_id_and_notes
    (w : World) (id : nat) (fields : list (string * JsVal)) (notes : JsVal) :
  handlers w !! id = Some (OnResponse initiate_cb) ->
  truthy (assoc "success" fields) = true ->
  trace (run w [Response id {| message := JObj fields |};
                TypeNotes (next_id w) notes;
                ClickEndCall (next_id w)])
  = trace w ++ [RemoteCall "walue_whatsapp_client.api.calls.end"
                  [("call_log_id", assoc "call_log_id" fields); ("notes", notes)]
                  None].
Proof.
  intros Hh Hs. cbn [run foldl].
  set (w1 := step w (Response id {| message := JObj fields |})).
  assert (E1 : calls w1 !! next_id w
               = Some {| cw_visible := true;
                         cw_heading := js_to_string (js_or (lead_name (doc w))
                                                       (JStr (doc_name (doc w))));
                         cw_phone := js_to_string (js_or (whatsapp_number (doc w))
                                                     (mobile_no (doc w)));
                         cw_badge := "Connecting...";
                         cw_badge_class := ["badge"; "badge-info"];
                         cw_timer_shown := false; cw_timer_display := "00:00";
                         call_notes := JUndefined; call_data := JObj fields |}
               /\ trace w1 = trace w).
  { unfold w1, step. rewrite Hh.
    unfold run_callback, start_call_callback, succeeded.
    cbn -[insert delete lookup alter]. rewrite Hs.
    cbn -[insert delete lookup alter].
    rewrite lookup_alter_eq, lookup_insert_eq. split; reflexivity. }
  destruct E1 as [E1 E2].
  set (w2 := step w1 (TypeNotes (next_id w) notes)).
  assert (E3 : calls w2 !! next_id w
               = Some {| cw_visible := true;
                         cw_heading := js_to_string (js_or (lead_name (doc w))
                                                       (JStr (doc_name (doc w))));
                         cw_phone := js_to_string (js_or (whatsapp_number (doc w))
                                                     (mobile_no (doc w)));
                         cw_badge := "Connecting...";
                         cw_badge_class := ["badge"; "badge-info"];
                         cw_timer_shown := false; cw_timer_display := "00:00";
                         call_notes := notes; call_data := JObj fields |}
               /\ trace w2 = trace w1).
  { unfold w2, step. rewrite E1. cbn -[insert delete lookup alter w1].
    rewrite lookup_alter_eq, E1. split; reflexivity. }
  destruct E3 as [E3 E4].
  rewrite (proj1 (end_call_click w2 (next_id w) _ E3 eq_refl)).
  rewrite E4, E2. reflexivity.
Qed.

Lemma end_call_sends_log_id_and_notes_witness :
  let w := step call_clicked (Response 0 {| message := JObj granted |}) in
  trace (run w [Response 1 {| message := JObj call_started |};
                TypeNotes 2 (JStr "Asked for a quote");
                ClickEndCall 2])
  = trace w ++ [RemoteCall "walue_whatsapp_client.api.calls.end"
                  [("call_log_id", JStr "C1"); ("notes", JStr "Asked for a quote")]
                  None].
Proof.
  apply (end_call_sends_log_id_and_notes
           (step call_clicked (Response 0 {| message := JObj granted |}))
           1 call_started (JStr "Asked for a quote")); reflexivity.
Defined.

(** ** From set-up to Connected *)

(** X20.  When the call set-up succeeds, the widget opens on
    "Connecting..." with the timer hidden; the first timeout turns the badge
    to "Ringing..."; the second turns it to "Connected", shows the timer
    and starts it from zero.  The badge carries one state class at a time. *)
Theorem call_reaches_connected
    (w : World) (id : nat) (fields : list (string * JsVal)) :
  handlers w !! id = Some (OnResponse initiate_cb) ->
  truthy (assoc "success" fields) = true ->
  let dialog := next_id w in
  let w1 := step w (Response id {| message := JObj fields |}) in
  let w2 := step w1 (TimeoutDue (S dialog)) in
  let w3 := step w2 (TimeoutDue (S (S dialog))) in
  let shown (w' : World) :=
    (fun c => (cw_visible c, cw_badge c, cw_badge_class c, cw_timer_shown c))
      <$> calls w' !! dialog in
  shown w1 = Some (true, "Connecting...", ["badge"; "badge-info"], false)
  /\ shown w2 = Some (true, "Ringing...", ["badge"; "badge-warning"], false)
  /\ shown w3 = Some (true, "Connected", ["badge"; "badge-success"], true)
  /\ trace w3 = trace w
  /\ callSeconds w3 = 0
  /\ timerInterval w3 = Some (S (S (S dialog)))
  /\ handlers w3 !! S (S (S dialog)) = Some (OnInterval dialog).
Proof.
  intros Hh Hs dialog w1 w2 w3 shown.
  assert (E1 : calls w1 !! dialog
               = Some {| cw_visible := true;
                         cw_heading := js_to_string (js_or (lead_name (doc w))
                                                       (JStr (doc_name (doc w))));
                         cw_phone := js_to_string (js_or (whatsapp_number (doc w))
                                                     (mobile_no (doc w)));
                         cw_badge := "Connecting...";
                         cw_badge_class := ["badge"; "badge-info"];
                         cw_timer_shown := false; cw_timer_display := "00:00";
                         call_notes := JUndefined; call_data := JObj fields |}
               /\ trace w1 = trace w
               /\ handlers w1 !! S dialog = Some (OnTimeout 1000 (Ringing dialog))
               /\ handlers w1 !! S (S dialog) = Some (OnTimeout 3000 (Connected dialog))
               /\ next_id w1 = S (S (S dialog))).
  { unfold w1, step. rewrite Hh.
    unfold run_callback, start_call_callback, succeeded.
    cbn -[insert delete lookup alter]. rewrite Hs.
    cbn -[insert delete lookup alter].
    rewrite lookup_alter_eq, lookup_insert_eq.
    rewrite lookup_insert_ne by (unfold dialog; lia).
    rewrite !lookup_insert_eq. repeat split. }
  destruct E1 as (E1 & T1 & H1a & H1b & N1).
  assert (E2 : calls w2 !! dialog
               = Some (cw_set_badge "Ringing..." "badge-info" "badge-warning"
                         {| cw_visible := true;
                            cw_heading := js_to_string (js_or (lead_name (doc w))
                                                          (JStr (doc_name (doc w))));
                            cw_phone := js_to_string (js_or (whatsapp_number (doc w))
                                                        (mobile_no (doc w)));
                            cw_badge := "Connecting...";
                            cw_badge_class := ["badge"; "badge-info"];
                            cw_timer_shown := false; cw_timer_display := "00:00";
                            call_notes := JUndefined; call_data := JObj fields |})
               /\ trace w2 = trace w1
               /\ handlers w2 !! S (S dialog) = Some (OnTimeout 3000 (Connected dialog))
               /\ next_id w2 = S (S (S dialog))).
  { unfold w2, step. rewrite H1a. cbn -[insert delete lookup alter w1 cw_set_badge].
    rewrite lookup_alter_eq, E1.
    rewrite lookup_delete_ne by lia. repeat split; assumption. }
  destruct E2 as (E2 & T2 & H2 & N2).
  assert (E3 : shown w3 = Some (true, "Connected", ["badge"; "badge-success"], true)
               /\ trace w3 = trace w2 /\ callSeconds w3 = 0
               /\ timerInterval w3 = Some (next_id w2)
               /\ handlers w3 !! next_id w2 = Some (OnInterval dialog)).
  { unfold shown, w3, step. rewrite H2.
    cbn -[insert delete lookup alter w2 cw_set_badge].
    rewrite !lookup_alter_eq, E2, lookup_insert_eq. repeat split. }
  destruct E3 as (E3 & T3 & C3 & I3 & H3).
  unfold shown at 1 2. rewrite E1, E2.
  split; [reflexivity |]. split; [reflexivity |]. split; [exact E3 |].
  split; [congruence |]. split; [exact C3 |].
  rewrite <- N2. split; assumption.
Qed.

Lemma call_reaches_connected_witness :
  (fun c => (cw_visible c, cw_badge c, cw_badge_class c, cw_timer_shown c))
    <$> calls connected !! 2%nat
  = Some (true, "Connected", ["badge"; "badge-success"], true).
Proof.
  exact (proj1 (proj2 (proj2
    (call_reaches_connected
       (step call_clicked (Response 0 {| message := JObj granted |}))
       1 call_started eq_refl eq_refl)))).
Defined.

(** ** After a sync *)

(** X21.  The template list is fetched again exactly when the sync
    succeeded: then the user sees the count in a green alert and a second
    [get_templates] request is in flight.  When the sync failed, the user
    sees the [error] of the response, or "Sync failed" when the response
    has no message, and nothing is requested. *)
Theorem sync_outcome (w : World) (id dialog : nat) (r : Reply) :
  handlers w !! id = Some (OnResponse (sync_templates_cb dialog)) ->
  let w' := step w (Response id r) in
  (succeeded r = true ->
   trace w'
   = trace w ++ [ShowAlert (JStr (__ "Synced {0} templates"
                                    [prop (message r) "synced_count"])) "green";
                 RemoteCall "walue_whatsapp_client.api.messages.get_templates" [] None]
   /\ handlers w'
      = <[next_id w := OnResponse (refresh_templates_cb dialog)]> (delete id (handlers w)))
  /\ (succeeded r = false ->
      trace w'
      = trace w ++ [ShowAlert (if truthy (message r) then prop (message r) "error"
                               else JStr "Sync failed") "red"]
      /\ handlers w' = delete id (handlers w)).
Proof.
  intros Hh. cbv zeta. unfold step. rewrite Hh.
  unfold run_callback, sync_templates_callback.
  cbn -[insert delete lookup alter succeeded error_or __].
  split; intros Hs; rewrite Hs; cbn -[insert delete lookup alter error_or __];
    rewrite <- ?app_assoc; split; reflexivity.
Qed.

Lemma sync_outcome_witness :
  trace (step syncing (Response 3 {| message := JObj [("success", JBool true);
                                                      ("synced_count", JNum 2)] |}))
  = trace syncing
      ++ [ShowAlert (JStr "Synced 2 templates") "green";
          RemoteCall "walue_whatsapp_client.api.messages.get_templates" [] None].
Proof.
  apply (sync_outcome syncing 3 2
           {| message := JObj [("success", JBool true); ("synced_count", JNum 2)] |});
    reflexivity.
Defined.
